(** * Sales Method Analysis dashboard: the filter and aggregation core

    A shallow embedding of [streamlit_app.py]: the loader ([load_data]),
    the option lists of the sidebar ([states], [retailers], [methods]),
    the filter block that rebinds [filtered], the three KPI scalars and
    the four [groupby] summaries.

    Modelling conventions.
    - A [DataFrame] is the list of its rows in index order; a column
      ([Series]) is the list of one field.  Boolean indexing
      [frame[mask]] keeps the rows whose mask entry is [True].  Rows are
      typed and complete: no cell is missing.
    - Python objects live in a heap; a variable of the script holds a
      reference.  [copy] and boolean indexing allocate a new frame.
    - A numeric cell holds its exact value, a rational ([Qc]).
      [series_sum] and [series_mean] are the exact sum and mean of those
      values, and [NaN] is explicit in [scalar].  pandas itself adds in
      binary64, where a sum depends on the order of the additions; that
      arithmetic is [sum_in_order] over [PrimFloat.add] on the [binary64]
      reading of the cells, and it is used where rounding decides.
    - The invoice-date column holds calendar dates, so a [Timestamp] is
      year, month and day (time of day 00:00:00).
    - Strings are compared as Python compares [str]: lexicographically by
      code point, which on UTF-8 bytes is [String.le]. *)

From Stdlib Require Import Ascii QArith Qcanon Uint63 PrimFloat.
From stdpp Require Import base decidable option list sorting strings gmap.

Local Open Scope Z_scope.

(** ** Orders on grouping and sorting keys *)

Class KeyOrder (K : Type) := {
  key_le : relation K;
  key_eq_dec :: EqDecision K;
  key_le_dec :: RelDecision key_le;
  key_le_po :: PartialOrder key_le;
  key_le_total :: Total key_le;
}.

Definition key_lt {K} `{KeyOrder K} : relation K := strict key_le.

#[global] Instance string_KeyOrder : KeyOrder string :=
  {| key_le := String.le |}.

(** ** Timestamps and monthly periods *)

Record Timestamp := mkTimestamp { year : Z; month : Z; day : Z }.

Record Period := mkPeriod { pyear : Z; pmonth : Z }.

Module Timestamp.
Definition leb (a b : Timestamp) : bool :=
  (year a <? year b)
  || ((year a =? year b)
      && ((month a <? month b)
          || ((month a =? month b) && (day a <=? day b)))).

Definition le (a b : Timestamp) : Prop := leb a b.

#[global] Instance eq_dec : EqDecision Timestamp.
Proof. solve_decision. Defined.

#[global] Instance le_dec : RelDecision le.
Proof. intros a b. unfold le. apply _. Defined.

Local Ltac le_to_Z :=
  unfold le, leb in *;
  repeat first [ rewrite orb_True in * | rewrite andb_True in * ];
  rewrite ?Is_true_true, ?Z.ltb_lt, ?Z.eqb_eq, ?Z.leb_le in *.

#[global] Instance le_po : PartialOrder le.
Proof.
  split; [split|].
  - intros a. le_to_Z. lia.
  - intros a b c Hab Hbc. le_to_Z. lia.
  - intros a b Hab Hba. le_to_Z.
    destruct a as [y1 m1 d1], b as [y2 m2 d2]; simpl in *. f_equal; lia.
Qed.

#[global] Instance le_total : Total le.
Proof. intros a b. unfold total. le_to_Z. lia. Qed.
End Timestamp.

#[global] Instance Timestamp_KeyOrder : KeyOrder Timestamp :=
  {| key_le := Timestamp.le |}.

(** [Series.dt.to_period("M")] and [PeriodIndex.to_timestamp()] (start of
    the period). *)
Definition to_period_M (t : Timestamp) : Period :=
  {| pyear := year t; pmonth := month t |}.

Definition to_timestamp (p : Period) : Timestamp :=
  {| year := pyear p; month := pmonth p; day := 1 |}.

(** ** Lexicographic order on a pair of keys, as [groupby] sorts a
    two-column key *)

Definition pair_le {A B} `{KeyOrder A, KeyOrder B} : relation (A * B) :=
  λ p q, key_lt p.1 q.1 ∨ (p.1 = q.1 ∧ key_le p.2 q.2).

Section pair_order.
Context {A B : Type} `{KeyOrder A, KeyOrder B}.

#[global] Instance pair_le_dec : RelDecision (@pair_le A B _ _).
Proof. intros p q. unfold pair_le, key_lt, strict. apply _. Defined.

#[global] Instance pair_le_po : PartialOrder (@pair_le A B _ _).
Proof.
  assert (∀ x y z : A, key_lt x y → key_lt y z → key_lt x z) as Htrans.
  { intros x y z [Hxy Hnyx] [Hyz Hnzy]. split; [by etrans|].
    intros Hzx. apply Hnyx. by etrans. }
  assert (∀ x : A, ¬ key_lt x x) as Hirrefl.
  { intros x [Hxx Hn]. by apply Hn. }
  split; [split|].
  - intros [a b]. right. done.
  - intros [a1 b1] [a2 b2] [a3 b3] H1 H2. unfold pair_le in *; simpl in *.
    destruct H1 as [Hl|[-> Hb]], H2 as [Hl'|[-> Hb']].
    + left. by eapply Htrans.
    + by left.
    + by left.
    + right. split; [done|by etrans].
  - intros [a1 b1] [a2 b2] H1 H2. unfold pair_le in *; simpl in *.
    destruct H1 as [Hl|[Ha Hb]], H2 as [Hl'|[Ha' Hb']]; subst.
    + destruct (Hirrefl a1). by eapply Htrans.
    + by apply Hirrefl in Hl.
    + by apply Hirrefl in Hl'.
    + f_equal. by apply (anti_symm key_le).
Qed.

#[global] Instance pair_le_total : Total (@pair_le A B _ _).
Proof.
  intros [a1 b1] [a2 b2]. unfold pair_le, key_lt, strict; simpl.
  destruct (decide (a1 = a2)) as [->|Hne].
  - destruct (total key_le b1 b2); [left|right]; by right.
  - destruct (total key_le a1 a2) as [Hle|Hle]; [left|right]; left;
      (split; [done|]); intros Hge; apply Hne; by apply (anti_symm key_le).
Qed.

#[global] Instance pair_KeyOrder : KeyOrder (A * B) :=
  {| key_le := pair_le |}.
End pair_order.

(** ** Scalars, rows and frames *)

(** A pandas float scalar: a finite number or [NaN]. *)
Inductive scalar := Num (q : Qc) | NaN.

Definition scalar_mul (x y : scalar) : scalar :=
  match x, y with
  | Num a, Num b => Num (a * b)%Qc
  | _, _ => NaN
  end.

Inductive PyErr := ValueError | IndexError | NameError.

(** One line of [data_clean.csv] as [pd.read_csv] returns it: the invoice
    date is still text. *)
Record CsvRow := mkCsvRow {
  csv_State : string;
  csv_Retailer : string;
  csv_SalesMethod : string;
  csv_Product : string;
  csv_InvoiceDate : string;
  csv_TotalSales : Qc;
  csv_OperatingProfit : Qc;
  csv_OperatingMargin : Qc;
}.

(** One row of [df] after [load_data]. *)
Record Row := mkRow {
  State : string;
  Retailer : string;
  SalesMethod : string;
  Product : string;
  InvoiceDate : Timestamp;
  Month : Timestamp;
  TotalSales : Qc;
  OperatingProfit : Qc;
  OperatingMargin : Qc;
}.

Abbreviation DataFrame := (list Row).

(** ** Series operations *)

(** [Series.unique()]: distinct values in order of first appearance. *)
Fixpoint unique {A} `{EqDecision A} (l : list A) : list A :=
  match l with
  | [] => []
  | x :: l => x :: filter (λ y, y ≠ x) (unique l)
  end.

(** Python's [sorted]: ascending for the order of the element type. *)
Definition sorted {K} `{KeyOrder K} (l : list K) : list K :=
  merge_sort key_le l.

(** [s == v], [s.isin(vals)], [s >= t], [s <= t], [m1 & m2]. *)
Definition series_eq {A} `{EqDecision A} (s : list A) (v : A) : list bool :=
  (λ x, bool_decide (x = v)) <$> s.

Definition isin {A} `{EqDecision A} (s : list A) (vals : list A) : list bool :=
  (λ x, bool_decide (x ∈ vals)) <$> s.

Definition series_ge {K} `{KeyOrder K} (s : list K) (t : K) : list bool :=
  (λ x, bool_decide (key_le t x)) <$> s.

Definition series_le {K} `{KeyOrder K} (s : list K) (t : K) : list bool :=
  (λ x, bool_decide (key_le x t)) <$> s.

Definition mask_and (m1 m2 : list bool) : list bool := zip_with andb m1 m2.

(** [frame[mask]]: the rows whose mask entry is true, in index order. *)
Fixpoint getitem_mask {A} (rows : list A) (mask : list bool) : list A :=
  match rows, mask with
  | r :: rows, b :: mask =>
      if b then r :: getitem_mask rows mask else getitem_mask rows mask
  | _, _ => []
  end.

(** [Series.sum()] and [Series.mean()] on the exact values of the cells:
    the sum is 0 and the mean is [NaN] for an empty column; rounding is
    left to [sum_in_order] below.  [Series.min()], [Series.max()]. *)
Definition series_sum (s : list Qc) : Qc := foldr Qcplus 0%Qc s.

Definition series_mean (s : list Qc) : scalar :=
  match s with
  | [] => NaN
  | _ :: _ => Num (series_sum s / Qc_of_Z (Z.of_nat (length s)))%Qc
  end.

Definition series_min {K} `{KeyOrder K} (s : list K) : option K :=
  match s with
  | [] => None
  | x :: s => Some (foldl (λ m y, if decide (key_le y m) then y else m) x s)
  end.

Definition series_max {K} `{KeyOrder K} (s : list K) : option K :=
  match s with
  | [] => None
  | x :: s => Some (foldl (λ m y, if decide (key_le m y) then y else m) x s)
  end.

(** ** load_data (lines 22-26)

    [pd.read_csv] is outside the model: [csv] is the table it returned,
    every cell present.  [to_datetime] stands for the parse of one cell
    of the Invoice Date column. *)

Section load_data.
(** [pd.to_datetime] on one cell of the CSV; [None] when the text does
    not parse, in which case pandas raises. *)
Variable to_datetime : string → option Timestamp.

Definition assign_columns (df : list CsvRow)
    (invoice_date month_col : list Timestamp) : DataFrame :=
  zip_with (λ c dm,
    {| State := csv_State c; Retailer := csv_Retailer c;
       SalesMethod := csv_SalesMethod c; Product := csv_Product c;
       InvoiceDate := dm.1; Month := dm.2;
       TotalSales := csv_TotalSales c;
       OperatingProfit := csv_OperatingProfit c;
       OperatingMargin := csv_OperatingMargin c |})
    df (zip invoice_date month_col).

Definition load_data (csv : list CsvRow) : PyErr + DataFrame :=
  match mapM to_datetime (csv_InvoiceDate <$> csv) with
  | None => inl ValueError
  | Some invoice_date =>
      let month_col := (to_timestamp ∘ to_period_M) <$> invoice_date in
      inr (assign_columns csv invoice_date month_col)
  end.
End load_data.

(** ** Sidebar (lines 36-49) *)

Definition states (df : DataFrame) : list string :=
  "All" :: sorted (unique (State <$> df)).

Definition retailers (df : DataFrame) : list string :=
  sorted (unique (Retailer <$> df)).

Definition methods (df : DataFrame) : list string :=
  sorted (unique (SalesMethod <$> df)).

Definition min_date (df : DataFrame) : option Timestamp :=
  series_min (InvoiceDate <$> df).

Definition max_date (df : DataFrame) : option Timestamp :=
  series_max (InvoiceDate <$> df).

(** What the four widgets return.  [date_range] is the tuple of
    [st.date_input]: it has two entries once both ends are picked. *)
Record Selection := mkSelection {
  selected_state : string;
  selected_retailers : list string;
  selected_methods : list string;
  date_range : list Timestamp;
}.

(** The widgets' defaults: first option of the select box, every retailer,
    every method, the whole span of the data. *)
Definition default_selection (df : DataFrame) : option Selection :=
  lo ← min_date df; hi ← max_date df;
  Some {| selected_state := "All";
          selected_retailers := retailers df;
          selected_methods := methods df;
          date_range := [lo; hi] |}.

(** ** The interpreter state: heap of frames and the script's globals *)

Record Interp := mkInterp {
  heap : list DataFrame;
  globals : gmap string nat;
}.

(** A statement or expression: from a state it returns a value or raises,
    and leaves a state either way. *)
Definition Py (A : Type) : Type := Interp → (PyErr + A) * Interp.

#[global] Instance Py_ret : MRet Py := λ A x st, (inr x, st).
#[global] Instance Py_bind : MBind Py := λ A B k m st,
  match m st with
  | (inl e, st') => (inl e, st')
  | (inr x, st') => k x st'
  end.

Definition raise {A} (e : PyErr) : Py A := λ st, (inl e, st).

(** Reading and binding a global name. *)
Definition load_name (x : string) : Py nat := λ st,
  match globals st !! x with
  | Some l => (inr l, st)
  | None => (inl NameError, st)
  end.

Definition store_name (x : string) (l : nat) : Py unit := λ st,
  (inr (), {| heap := heap st; globals := <[x := l]> (globals st) |}).

(** The frame a reference points to, and a new frame object. *)
Definition deref (l : nat) : Py DataFrame := λ st,
  match heap st !! l with
  | Some rows => (inr rows, st)
  | None => (inl NameError, st)
  end.

Definition new_frame (rows : DataFrame) : Py nat := λ st,
  (inr (length (heap st)),
   {| heap := heap st ++ [rows]; globals := globals st |}).

(** [frame.copy()] and [frame[mask]] both build a new object. *)
Definition frame_copy (l : nat) : Py nat :=
  rows ← deref l; new_frame rows.

Definition frame_getitem (l : nat) (mask : list bool) : Py nat :=
  rows ← deref l; new_frame (getitem_mask rows mask).

(** [frame[name]]: a column of the frame. *)
Definition frame_column {A} (col : Row → A) (l : nat) : Py (list A) :=
  rows ← deref l; mret (col <$> rows).

(** [seq[i]] on a tuple. *)
Definition subscript {A} (s : list A) (i : nat) : Py A :=
  match s !! i with
  | Some x => mret x
  | None => raise IndexError
  end.

(** [pd.to_datetime] on a [datetime.date]: that day at midnight. *)
Definition to_datetime_date (d : Timestamp) : Timestamp := d.

(** ** Apply filters (lines 52-60) *)

Definition apply_filters (sel : Selection) : Py unit :=
  (* filtered = df.copy() *)
  (d ← load_name "df"; c ← frame_copy d; store_name "filtered" c);;
  (* if selected_state != "All":
         filtered = filtered[filtered["State"] == selected_state] *)
  (if bool_decide (selected_state sel ≠ "All") then
     f ← load_name "filtered";
     f' ← load_name "filtered"; s ← frame_column State f';
     r ← frame_getitem f (series_eq s (selected_state sel));
     store_name "filtered" r
   else mret ());;
  (* filtered = filtered[filtered["Retailer"].isin(selected_retailers)] *)
  (f ← load_name "filtered";
   f' ← load_name "filtered"; s ← frame_column Retailer f';
   r ← frame_getitem f (isin s (selected_retailers sel));
   store_name "filtered" r);;
  (* filtered = filtered[filtered["Sales Method"].isin(selected_methods)] *)
  (f ← load_name "filtered";
   f' ← load_name "filtered"; s ← frame_column SalesMethod f';
   r ← frame_getitem f (isin s (selected_methods sel));
   store_name "filtered" r);;
  (* filtered = filtered[
         (filtered["Invoice Date"] >= pd.to_datetime(date_range[0]))
         & (filtered["Invoice Date"] <= pd.to_datetime(date_range[1]))] *)
  (f ← load_name "filtered";
   f1 ← load_name "filtered"; s1 ← frame_column InvoiceDate f1;
   lo ← subscript (date_range sel) 0;
   f2 ← load_name "filtered"; s2 ← frame_column InvoiceDate f2;
   hi ← subscript (date_range sel) 1;
   r ← frame_getitem f (mask_and (series_ge s1 (to_datetime_date lo))
                                 (series_le s2 (to_datetime_date hi)));
   store_name "filtered" r).

(** The rows a global name denotes in a state. *)
Definition frame_of (x : string) (st : Interp) : option DataFrame :=
  l ← globals st !! x; heap st !! l.

(** The state of the script once [df = load_data()] has run. *)
Definition loaded (df : DataFrame) : Interp :=
  {| heap := [df]; globals := {["df" := 0%nat]} |}.

(** The rows [filtered] is bound to once line 60 has run, or the exception
    that stopped the block. *)
Definition filtered_after (sel : Selection) (st : Interp) : PyErr + DataFrame :=
  match apply_filters sel st with
  | (inl e, _) => inl e
  | (inr _, st') =>
      match frame_of "filtered" st' with
      | Some rows => inr rows
      | None => inl NameError
      end
  end.

(** The filter block as a function of the data set and the selection. *)
Definition apply (df : DataFrame) (sel : Selection) : PyErr + DataFrame :=
  filtered_after sel (loaded df).

(** ** KPI metrics (lines 67-69) *)

Definition total_sales (filtered : DataFrame) : Qc :=
  series_sum (TotalSales <$> filtered).

Definition total_profit (filtered : DataFrame) : Qc :=
  series_sum (OperatingProfit <$> filtered).

Definition avg_margin (filtered : DataFrame) : scalar :=
  scalar_mul (series_mean (OperatingMargin <$> filtered))
             (Num (Qc_of_Z 100)).

(** ** groupby and the four summaries (lines 99, 111, 119, 132) *)

(** [frame.groupby(keys)]: one group per key value that occurs, groups in
    ascending key order ([sort=True]), each holding the rows with that key. *)
Definition groupby {K} `{KeyOrder K} (keyf : Row → K) (df : DataFrame)
    : list (K * DataFrame) :=
  (λ k, (k, filter (λ r, keyf r = k) df)) <$> sorted (unique (keyf <$> df)).

(** [...[col].sum().reset_index()] and [...[col].mean().reset_index()]. *)
Definition agg_sum {K} (col : Row → Qc) (groups : list (K * DataFrame))
    : list (K * Qc) :=
  (λ g, (g.1, series_sum (col <$> g.2))) <$> groups.

Definition agg_mean {K} (col : Row → Qc) (groups : list (K * DataFrame))
    : list (K * scalar) :=
  (λ g, (g.1, series_mean (col <$> g.2))) <$> groups.

Definition sales_method (filtered : DataFrame) : list (string * Qc) :=
  agg_sum TotalSales (groupby SalesMethod filtered).

Definition monthly_sales (filtered : DataFrame)
    : list ((Timestamp * string) * Qc) :=
  agg_sum TotalSales (groupby (λ r, (Month r, SalesMethod r)) filtered).

Definition margin (filtered : DataFrame) : list (string * scalar) :=
  agg_mean OperatingMargin (groupby SalesMethod filtered).

Definition product_sales (filtered : DataFrame)
    : list ((string * string) * Qc) :=
  agg_sum TotalSales (groupby (λ r, (Product r, SalesMethod r)) filtered).

(** ** Specification vocabulary *)

(** [runs m st Q]: from [st] the computation [m] raises nothing and ends
    with a value and a state that satisfy [Q]. *)
Definition runs {A} (m : Py A) (st : Interp) (Q : A → Interp → Prop) : Prop :=
  ∃ x st', m st = (inr x, st') ∧ Q x st'.

(** [wp m st Q]: the outcome of [m] from [st], value or exception together
    with the final state, satisfies [Q]. *)
Definition wp {A} (m : Py A) (st : Interp)
    (Q : (PyErr + A) * Interp → Prop) : Prop := Q (m st).

(** [raises m st e]: from [st] the computation [m] raises [e]. *)
Definition raises {A} (m : Py A) (st : Interp) (e : PyErr) : Prop :=
  (m st).1 = inl e.

(** [extends st st']: every object of [st] is in [st'] unchanged, and the
    globals differ at most in the name [filtered]. *)
Definition extends (st st' : Interp) : Prop :=
  (∃ new, heap st' = heap st ++ new) ∧
  ∀ x, x ≠ "filtered" → globals st' !! x = globals st !! x.

(** [frames m]: whatever [m] does, with or without an exception, the state
    it leaves extends the state it started from. *)
Definition frames {A} (m : Py A) : Prop := ∀ st, extends st (m st).2.

(** [rebinds st0 rows st]: [st] is [st0] with new objects appended to the
    heap and the single name [filtered] rebound, to a frame with [rows]. *)
Definition rebinds (st0 : Interp) (rows : DataFrame) (st : Interp) : Prop :=
  (∃ new, heap st = heap st0 ++ new) ∧
  ∃ f, globals st = <["filtered" := f]> (globals st0) ∧
       heap st !! f = Some rows.

(** The rows that pass a selection whose date tuple is [(lo, hi)]. *)
Definition passes (sel : Selection) (lo hi : Timestamp) (r : Row) : Prop :=
  (State r = selected_state sel ∨ selected_state sel = "All") ∧
  Retailer r ∈ selected_retailers sel ∧
  SalesMethod r ∈ selected_methods sel ∧
  key_le lo (InvoiceDate r) ∧ key_le (InvoiceDate r) hi.

#[global] Instance passes_dec sel lo hi r : Decision (passes sel lo hi r).
Proof. unfold passes. apply _. Defined.

(** ** A small data set for the examples: three invoices over two months *)

Definition example_df : DataFrame :=
  [ {| State := "New York"; Retailer := "Foot Locker"; SalesMethod := "Online";
       Product := "Men's Street Footwear";
       InvoiceDate := mkTimestamp 2021 1 15; Month := mkTimestamp 2021 1 1;
       TotalSales := Qc_of_Z 100; OperatingProfit := Qc_of_Z 30;
       OperatingMargin := Q2Qc (3 # 10) |};
    {| State := "New York"; Retailer := "Foot Locker"; SalesMethod := "Outlet";
       Product := "Women's Apparel";
       InvoiceDate := mkTimestamp 2021 1 20; Month := mkTimestamp 2021 1 1;
       TotalSales := Qc_of_Z 50; OperatingProfit := Qc_of_Z 10;
       OperatingMargin := Q2Qc (2 # 10) |};
    {| State := "Texas"; Retailer := "Amazon"; SalesMethod := "Online";
       Product := "Men's Street Footwear";
       InvoiceDate := mkTimestamp 2021 2 10; Month := mkTimestamp 2021 2 1;
       TotalSales := Qc_of_Z 200; OperatingProfit := Qc_of_Z 80;
       OperatingMargin := Q2Qc (4 # 10) |} ].

Definition example_selection : Selection :=
  {| selected_state := "All";
     selected_retailers := ["Amazon"; "Foot Locker"];
     selected_methods := ["Online"; "Outlet"];
     date_range := [mkTimestamp 2021 1 15; mkTimestamp 2021 2 10] |}.

(** A data set whose only state sorts before the word "All". *)
Definition alabama_df : DataFrame :=
  [ {| State := "Alabama"; Retailer := "Walmart"; SalesMethod := "In-store";
       Product := "Women's Apparel";
       InvoiceDate := mkTimestamp 2020 3 4; Month := mkTimestamp 2020 3 1;
       TotalSales := Qc_of_Z 75; OperatingProfit := Qc_of_Z 15;
       OperatingMargin := Q2Qc (2 # 10) |} ].

(** A state of the script in which another frame exists and [filtered] is
    already bound, to an empty frame. *)
Definition example_state : Interp :=
  {| heap := [alabama_df; example_df; []];
     globals := {[ "df" := 1%nat; "filtered" := 2%nat ]} |}.

(** ** A date parser for the examples: the ISO form YYYY-MM-DD *)

Fixpoint digits (s : string) (acc : Z) : option Z :=
  match s with
  | EmptyString => Some acc
  | String c s => d ← Ascii.is_nat c; digits s (10 * acc + Z.of_nat d)
  end.

Definition parse_iso (s : string) : option Timestamp :=
  if bool_decide (String.length s = 10%nat
                  ∧ String.get 4 s = Some "-"%char
                  ∧ String.get 7 s = Some "-"%char)
  then y ← digits (String.substring 0 4 s) 0;
       m ← digits (String.substring 5 2 s) 0;
       d ← digits (String.substring 8 2 s) 0;
       Some (mkTimestamp y m d)
  else None.

Definition example_csv : list CsvRow :=
  [ mkCsvRow "New York" "Foot Locker" "Online" "Men's Street Footwear"
      "2021-01-15" (Qc_of_Z 100) (Qc_of_Z 30) (Q2Qc (3 # 10));
    mkCsvRow "New York" "Foot Locker" "Outlet" "Women's Apparel"
      "2021-01-20" (Qc_of_Z 50) (Qc_of_Z 10) (Q2Qc (2 # 10));
    mkCsvRow "Texas" "Amazon" "Online" "Men's Street Footwear"
      "2021-02-10" (Qc_of_Z 200) (Qc_of_Z 80) (Q2Qc (4 # 10)) ].

(** ** Vocabulary for the summaries *)

(** The table has one row for each key value that occurs in the frame, and
    no other row. *)
Definition one_row_per_key {K V} (keyf : Row → K) (df : DataFrame)
    (table : list (K * V)) : Prop :=
  NoDup table.*1 ∧ ∀ k, k ∈ table.*1 ↔ ∃ r, r ∈ df ∧ keyf r = k.

(** Every row of the frame is in one group, the one of its key, once; no
    group is empty. *)
Definition exact_partition {K} (keyf : Row → K) (df : DataFrame)
    (groups : list (K * DataFrame)) : Prop :=
  concat groups.*2 ≡ₚ df ∧
  ∀ k g, (k, g) ∈ groups → g ≠ [] ∧ ∀ r, r ∈ g → keyf r = k.


(** ** Binary64 addition

    The sums of the script as pandas computes them on a float64 column.
    [binary64 q] is the double nearest to the value [q] of a cell (exact
    when numerator and denominator are below 2^53).  [sum_in_order] adds
    the entries of a column one after the other from zero, which is how a
    column of fewer than eight entries is reduced. *)

Definition float_of_Z (z : Z) : float :=
  match z with
  | Z0 => 0%float
  | Zpos p => of_uint63 (Uint63.of_pos p)
  | Zneg p => (- of_uint63 (Uint63.of_pos p))%float
  end.

Definition binary64 (q : Qc) : float :=
  (float_of_Z (Qnum q) / float_of_Z (Zpos (Qden q)))%float.

Definition sum_in_order {N} (add : N → N → N) (zero : N) (s : list N) : N :=
  foldl add zero s.

(** [frame.groupby(keys)[col].sum().reset_index()] for an addition [add]
    on the values [val] of the column. *)
Definition grouped_sums {N K} `{KeyOrder K} (add : N → N → N) (zero : N)
    (val : Row → N) (keyf : Row → K) (df : DataFrame) : list (K * N) :=
  (λ g, (g.1, sum_in_order add zero (val <$> g.2))) <$> groupby keyf df.

Definition total_sales_binary64 (filtered : DataFrame) : float :=
  sum_in_order PrimFloat.add 0%float (binary64 ∘ TotalSales <$> filtered).

Definition sales_method_binary64 (filtered : DataFrame)
    : list (string * float) :=
  grouped_sums PrimFloat.add 0%float (binary64 ∘ TotalSales) SalesMethod
    filtered.

(** Three invoices of 0.1, 0.2 and 0.3, the last two by the same method. *)
Definition rounding_df : DataFrame :=
  [ {| State := "Texas"; Retailer := "Amazon"; SalesMethod := "In-store";
       Product := "Men's Apparel";
       InvoiceDate := mkTimestamp 2021 3 1; Month := mkTimestamp 2021 3 1;
       TotalSales := Q2Qc (1 # 10); OperatingProfit := Q2Qc (1 # 100);
       OperatingMargin := Q2Qc (1 # 10) |};
    {| State := "Texas"; Retailer := "Amazon"; SalesMethod := "Online";
       Product := "Men's Apparel";
       InvoiceDate := mkTimestamp 2021 3 2; Month := mkTimestamp 2021 3 1;
       TotalSales := Q2Qc (2 # 10); OperatingProfit := Q2Qc (2 # 100);
       OperatingMargin := Q2Qc (1 # 10) |};
    {| State := "Texas"; Retailer := "Amazon"; SalesMethod := "Online";
       Product := "Men's Apparel";
       InvoiceDate := mkTimestamp 2021 3 3; Month := mkTimestamp 2021 3 1;
       TotalSales := Q2Qc (3 # 10); OperatingProfit := Q2Qc (3 # 100);
       OperatingMargin := Q2Qc (1 # 10) |} ].

(** ** Facts about series operations *)

Section series_facts.
Context {A : Type}.

Lemma getitem_mask_decide (P : A → Prop) `{∀ x, Decision (P x)} (rows : list A) :
  getitem_mask rows ((λ x, bool_decide (P x)) <$> rows) = filter P rows.
Proof.
  induction rows as [|r rows IH]; [done|].
  rewrite fmap_cons, filter_cons. cbn [getitem_mask].
  destruct (decide (P r)) as [HP|HP].
  - rewrite bool_decide_eq_true_2 by done. by rewrite IH.
  - by rewrite bool_decide_eq_false_2 by done.
Qed.

Lemma mask_and_fmap (f g : A → bool) (rows : list A) :
  mask_and (f <$> rows) (g <$> rows) = (λ x, f x && g x) <$> rows.
Proof. induction rows as [|r rows IH]; [done|]. unfold mask_and in *. cbn. by rewrite IH. Qed.
End series_facts.

Lemma unique_elem_of {A} `{EqDecision A} (l : list A) (x : A) :
  x ∈ unique l ↔ x ∈ l.
Proof.
  induction l as [|y l IH]; [done|]. cbn [unique].
  rewrite !elem_of_cons, list_elem_of_filter, IH.
  destruct (decide (x = y)); tauto.
Qed.

Lemma unique_NoDup {A} `{EqDecision A} (l : list A) : NoDup (unique l).
Proof.
  induction l as [|y l IH]; [constructor|]. cbn [unique].
  constructor.
  - rewrite list_elem_of_filter. by intros [Hne _].
  - by apply NoDup_filter.
Qed.

(** ** Running the script: weakest-precondition style rules *)

Section runs_rules.
Context {A B : Type}.
Implicit Types (st : Interp) (Q : A → Interp → Prop).

Lemma runs_ret (x : A) st Q : Q x st → runs (mret x) st Q.
Proof. intros HQ. by exists x, st. Qed.

Lemma runs_bind (m : Py A) (k : A → Py B) st (R : B → Interp → Prop) :
  runs m st (λ x st', runs (k x) st' R) → runs (m ≫= k) st R.
Proof.
  intros (x & st' & Hm & y & st'' & Hk & HR). exists y, st''. split; [|done].
  unfold mbind, Py_bind. by rewrite Hm.
Qed.

Lemma runs_mono (m : Py A) st Q (Q' : A → Interp → Prop) :
  runs m st Q → (∀ x st', Q x st' → Q' x st') → runs m st Q'.
Proof. intros (x & st' & Hm & HQ) Himp. exists x, st'. eauto. Qed.

Lemma runs_subscript (s : list A) (i : nat) (x : A) st Q :
  s !! i = Some x → Q x st → runs (subscript s i) st Q.
Proof. intros Hs HQ. unfold subscript. rewrite Hs. by apply runs_ret. Qed.
End runs_rules.

Lemma runs_load_name x l st (Q : nat → Interp → Prop) :
  globals st !! x = Some l → Q l st → runs (load_name x) st Q.
Proof. intros Hx HQ. exists l, st. unfold load_name. by rewrite Hx. Qed.

Lemma runs_store_name x l st (Q : unit → Interp → Prop) :
  Q () {| heap := heap st; globals := <[x := l]> (globals st) |} →
  runs (store_name x l) st Q.
Proof. intros HQ. by eexists _, _. Qed.

Lemma runs_deref l rows st (Q : DataFrame → Interp → Prop) :
  heap st !! l = Some rows → Q rows st → runs (deref l) st Q.
Proof. intros Hl HQ. exists rows, st. unfold deref. by rewrite Hl. Qed.

Lemma runs_new_frame rows st (Q : nat → Interp → Prop) :
  Q (length (heap st)) {| heap := heap st ++ [rows]; globals := globals st |} →
  runs (new_frame rows) st Q.
Proof. intros HQ. by eexists _, _. Qed.

Lemma runs_frame_column {A} (col : Row → A) l rows st
    (Q : list A → Interp → Prop) :
  heap st !! l = Some rows → Q (col <$> rows) st →
  runs (frame_column col l) st Q.
Proof.
  intros Hl HQ. apply runs_bind. eapply runs_deref; [done|]. by apply runs_ret.
Qed.

Lemma runs_frame_getitem l rows mask st (Q : nat → Interp → Prop) :
  heap st !! l = Some rows →
  Q (length (heap st))
    {| heap := heap st ++ [getitem_mask rows mask]; globals := globals st |} →
  runs (frame_getitem l mask) st Q.
Proof.
  intros Hl HQ. apply runs_bind. eapply runs_deref; [done|].
  by apply runs_new_frame.
Qed.

Lemma runs_frame_copy l rows st (Q : nat → Interp → Prop) :
  heap st !! l = Some rows →
  Q (length (heap st)) {| heap := heap st ++ [rows]; globals := globals st |} →
  runs (frame_copy l) st Q.
Proof.
  intros Hl HQ. apply runs_bind. eapply runs_deref; [done|].
  by apply runs_new_frame.
Qed.

(** Rules for exceptions. *)

Lemma raises_bind_l {A B} (m : Py A) (k : A → Py B) st e :
  raises m st e → raises (m ≫= k) st e.
Proof.
  unfold raises, mbind, Py_bind.
  destruct (m st) as [[e'|x] st']; simpl; intros He; [congruence|discriminate].
Qed.

Lemma raises_bind_r {A B} (m : Py A) (k : A → Py B) st e :
  runs m st (λ x st', raises (k x) st' e) → raises (m ≫= k) st e.
Proof.
  intros (x & st' & Hm & Hk). unfold raises, mbind, Py_bind. by rewrite Hm.
Qed.

Lemma raises_load_name x st :
  globals st !! x = None → raises (load_name x) st NameError.
Proof. intros Hx. unfold raises, load_name. by rewrite Hx. Qed.

Lemma raises_deref l st :
  heap st !! l = None → raises (deref l) st NameError.
Proof. intros Hl. unfold raises, deref. by rewrite Hl. Qed.

Lemma raises_subscript {A} (s : list A) i st :
  s !! i = None → raises (subscript s i) st IndexError.
Proof. intros Hs. unfold raises, subscript. by rewrite Hs. Qed.

(** Rules for the frame property. *)

Lemma extends_refl st : extends st st.
Proof. split; [exists []; by rewrite (right_id_L [] (++))|done]. Qed.

Lemma extends_trans st1 st2 st3 :
  extends st1 st2 → extends st2 st3 → extends st1 st3.
Proof.
  intros [[n1 H1] G1] [[n2 H2] G2]. split.
  - exists (n1 ++ n2). by rewrite H2, H1, (assoc_L (++)).
  - intros x Hx. by rewrite G2, G1.
Qed.

Lemma frames_ret {A} (x : A) : frames (mret x).
Proof. intros st. apply extends_refl. Qed.

Lemma frames_raise {A} e : frames (@raise A e).
Proof. intros st. apply extends_refl. Qed.

Lemma frames_bind {A B} (m : Py A) (k : A → Py B) :
  frames m → (∀ x, frames (k x)) → frames (m ≫= k).
Proof.
  intros Hm Hk st. specialize (Hm st). unfold mbind, Py_bind.
  destruct (m st) as [[e|x] st']; simpl in *; [done|].
  eapply extends_trans; [done|]. apply Hk.
Qed.

Lemma frames_load_name x : frames (load_name x).
Proof.
  intros st. unfold load_name. destruct (globals st !! x); apply extends_refl.
Qed.

Lemma frames_deref l : frames (deref l).
Proof.
  intros st. unfold deref. destruct (heap st !! l); apply extends_refl.
Qed.

Lemma frames_subscript {A} (s : list A) i : frames (subscript s i).
Proof.
  unfold subscript. destruct (s !! i); [apply frames_ret|apply frames_raise].
Qed.

Lemma frames_new_frame rows : frames (new_frame rows).
Proof. intros st. split; simpl; [by eexists|done]. Qed.

Lemma frames_store_filtered l : frames (store_name "filtered" l).
Proof.
  intros st. split; simpl; [exists []; by rewrite (right_id_L [] (++))|].
  intros x Hx. by rewrite lookup_insert_ne.
Qed.

Create HintDb frames.
#[global] Hint Resolve frames_ret frames_raise frames_load_name frames_deref
  frames_subscript frames_new_frame frames_store_filtered : frames.
#[global] Hint Extern 2 (frames (_ ≫= _)) =>
  apply frames_bind; [|intros ?] : frames.

Lemma frames_frame_copy l : frames (frame_copy l).
Proof. unfold frame_copy. auto with frames. Qed.

Lemma frames_frame_getitem l mask : frames (frame_getitem l mask).
Proof. unfold frame_getitem. auto with frames. Qed.

Lemma frames_frame_column {A} (col : Row → A) l : frames (frame_column col l).
Proof. unfold frame_column. auto with frames. Qed.

#[global] Hint Resolve frames_frame_copy frames_frame_getitem
  frames_frame_column : frames.

(** ** The filter block *)

Lemma rebinds_step st0 rows rows' st f :
  rebinds st0 rows st →
  f = length (heap st) →
  rebinds st0 rows'
    {| heap := heap st ++ [rows'];
       globals := <["filtered" := f]> (globals st) |}.
Proof.
  intros [[new Hheap] (f0 & Hg & Hf0)] ->. split; simpl.
  - exists (new ++ [rows']). by rewrite Hheap, (assoc_L (++)).
  - exists (length (heap st)). split.
    + by rewrite Hg, insert_insert_eq.
    + by apply list_lookup_middle.
Qed.

(** One statement [filtered = filtered[mask(filtered[col])]]. *)
Lemma runs_filter_stmt {A} (col : Row → A) (mk : list A → list bool)
    st0 rows st (Q : unit → Interp → Prop) :
  rebinds st0 rows st →
  (∀ st', rebinds st0 (getitem_mask rows (mk (col <$> rows))) st' → Q () st') →
  runs (f ← load_name "filtered";
        f' ← load_name "filtered"; s ← frame_column col f';
        r ← frame_getitem f (mk s);
        store_name "filtered" r) st Q.
Proof.
  intros Hreb HQ. pose proof Hreb as [_ (f & Hg & Hf)].
  assert (globals st !! "filtered" = Some f) as Hname
    by (by rewrite Hg, lookup_insert_eq).
  apply runs_bind. eapply runs_load_name; [done|].
  apply runs_bind. eapply runs_load_name; [done|].
  apply runs_bind. eapply runs_frame_column; [done|].
  apply runs_bind. eapply runs_frame_getitem; [done|].
  apply runs_store_name. simpl. apply HQ. by eapply rebinds_step.
Qed.

Lemma filter_all {A} (P : A → Prop) `{∀ x, Decision (P x)} (l : list A) :
  (∀ x, x ∈ l → P x) → filter P l = l.
Proof.
  induction l as [|x l IH]; intros HP; [done|].
  rewrite filter_cons_True by (apply HP; left).
  f_equal. apply IH. intros y Hy. apply HP. by right.
Qed.

Lemma getitem_series_eq {A} `{EqDecision A} (col : Row → A) v (rows : DataFrame) :
  getitem_mask rows (series_eq (col <$> rows) v) = filter (λ r, col r = v) rows.
Proof.
  unfold series_eq. rewrite <-list_fmap_compose.
  apply (getitem_mask_decide (λ r, col r = v)).
Qed.

Lemma getitem_isin {A} `{EqDecision A} (col : Row → A) vals (rows : DataFrame) :
  getitem_mask rows (isin (col <$> rows) vals) = filter (λ r, col r ∈ vals) rows.
Proof.
  unfold isin. rewrite <-list_fmap_compose.
  apply (getitem_mask_decide (λ r, col r ∈ vals)).
Qed.

Lemma getitem_between {K} `{KeyOrder K} (col : Row → K) lo hi (rows : DataFrame) :
  getitem_mask rows (mask_and (series_ge (col <$> rows) lo)
                              (series_le (col <$> rows) hi))
  = filter (λ r, key_le lo (col r) ∧ key_le (col r) hi) rows.
Proof.
  unfold series_ge, series_le. rewrite <-!list_fmap_compose, mask_and_fmap.
  rewrite <-(getitem_mask_decide (λ r, key_le lo (col r) ∧ key_le (col r) hi)).
  f_equal. apply list_fmap_ext. intros i r _. simpl.
  by rewrite bool_decide_and.
Qed.

Lemma rebinds_eq st0 rows rows' st :
  rebinds st0 rows st → rows = rows' → rebinds st0 rows' st.
Proof. by intros ? <-. Qed.

Lemma wp_bind_runs {A B} (m : Py A) (k : A → Py B) st
    (Q : (PyErr + B) * Interp → Prop) :
  runs m st (λ x st', wp (k x) st' Q) → wp (m ≫= k) st Q.
Proof.
  intros (x & st' & Hm & Hk). unfold wp, mbind, Py_bind in *. by rewrite Hm.
Qed.

(** The three filters on State, Retailer and Sales Method. *)
Lemma wp_filter_prefix sel st d (df : DataFrame) (last : Py unit)
    (Q : (PyErr + unit) * Interp → Prop) :
  globals st !! "df" = Some d →
  heap st !! d = Some df →
  (∀ st3,
     rebinds st
       (filter (λ r, SalesMethod r ∈ selected_methods sel ∧
                     Retailer r ∈ selected_retailers sel ∧
                     (State r = selected_state sel ∨ selected_state sel = "All"))
               df) st3 →
     wp last st3 Q) →
  wp ((d ← load_name "df"; c ← frame_copy d; store_name "filtered" c);;
      (if bool_decide (selected_state sel ≠ "All") then
         f ← load_name "filtered";
         f' ← load_name "filtered"; s ← frame_column State f';
         r ← frame_getitem f (series_eq s (selected_state sel));
         store_name "filtered" r
       else mret ());;
      (f ← load_name "filtered";
       f' ← load_name "filtered"; s ← frame_column Retailer f';
       r ← frame_getitem f (isin s (selected_retailers sel));
       store_name "filtered" r);;
      (f ← load_name "filtered";
       f' ← load_name "filtered"; s ← frame_column SalesMethod f';
       r ← frame_getitem f (isin s (selected_methods sel));
       store_name "filtered" r);;
      last) st Q.
Proof.
  intros Hd Hdf Hlast.
  (* filtered = df.copy() *)
  apply wp_bind_runs. apply runs_bind. eapply runs_load_name; [done|].
  apply runs_bind. eapply runs_frame_copy; [done|].
  apply runs_store_name.
  assert (rebinds st df
            {| heap := heap st ++ [df];
               globals := <["filtered" := length (heap st)]> (globals st) |})
    as Hcopy.
  { split; simpl; [by eexists|]. eexists. split; [done|].
    by apply list_lookup_middle. }
  (* the State comparison, unless "All" is selected *)
  apply wp_bind_runs.
  apply (runs_mono _ _ (λ _ st',
    rebinds st (filter (λ r, State r = selected_state sel
                              ∨ selected_state sel = "All") df) st')).
  { case_bool_decide as Hall.
    - eapply runs_filter_stmt; [exact Hcopy|]. intros st' Hst'.
      rewrite getitem_series_eq in Hst'. cbv beta.
      rewrite (list_filter_iff _ (λ r, State r = selected_state sel));
        [exact Hst'|]. intros r; simpl. tauto.
    - apply runs_ret. cbv beta.
      rewrite filter_all by (intros r _; by right).
      exact Hcopy. }
  intros [] st1 Hst1.
  (* the two isin filters *)
  apply wp_bind_runs. eapply runs_filter_stmt; [exact Hst1|].
  intros st2 Hst2. rewrite getitem_isin, list_filter_filter in Hst2.
  apply wp_bind_runs. eapply runs_filter_stmt; [exact Hst2|].
  intros st3 Hst3. rewrite getitem_isin, list_filter_filter in Hst3.
  by apply Hlast.
Qed.

(** The date statement, when both ends of the tuple exist. *)
Lemma runs_date_stmt (range : list Timestamp) lo hi st0 rows st :
  rebinds st0 rows st →
  range !! 0%nat = Some lo →
  range !! 1%nat = Some hi →
  runs (f ← load_name "filtered";
        f1 ← load_name "filtered"; s1 ← frame_column InvoiceDate f1;
        lo ← subscript range 0;
        f2 ← load_name "filtered"; s2 ← frame_column InvoiceDate f2;
        hi ← subscript range 1;
        r ← frame_getitem f (mask_and (series_ge s1 (to_datetime_date lo))
                                      (series_le s2 (to_datetime_date hi)));
        store_name "filtered" r) st
       (λ _ st', rebinds st0
          (filter (λ r, key_le lo (InvoiceDate r) ∧ key_le (InvoiceDate r) hi)
                  rows) st').
Proof.
  intros Hreb Hlo Hhi. pose proof Hreb as [_ (f & Hg & Hf)].
  assert (globals st !! "filtered" = Some f) as Hname
    by (by rewrite Hg, lookup_insert_eq).
  apply runs_bind. eapply runs_load_name; [done|].
  apply runs_bind. eapply runs_load_name; [done|].
  apply runs_bind. eapply runs_frame_column; [done|].
  apply runs_bind. eapply runs_subscript; [done|].
  apply runs_bind. eapply runs_load_name; [done|].
  apply runs_bind. eapply runs_frame_column; [done|].
  apply runs_bind. eapply runs_subscript; [done|].
  apply runs_bind. eapply runs_frame_getitem; [done|].
  apply runs_store_name. simpl.
  unfold to_datetime_date. rewrite (getitem_between InvoiceDate).
  by eapply rebinds_step.
Qed.

(** The date statement, when the tuple is too short. *)
Lemma raises_date_stmt (range : list Timestamp) st0 rows st :
  rebinds st0 rows st →
  range !! 0%nat = None ∨ range !! 1%nat = None →
  raises (f ← load_name "filtered";
          f1 ← load_name "filtered"; s1 ← frame_column InvoiceDate f1;
          lo ← subscript range 0;
          f2 ← load_name "filtered"; s2 ← frame_column InvoiceDate f2;
          hi ← subscript range 1;
          r ← frame_getitem f (mask_and (series_ge s1 (to_datetime_date lo))
                                        (series_le s2 (to_datetime_date hi)));
          store_name "filtered" r) st IndexError.
Proof.
  intros Hreb Hshort. pose proof Hreb as [_ (f & Hg & Hf)].
  assert (globals st !! "filtered" = Some f) as Hname
    by (by rewrite Hg, lookup_insert_eq).
  apply raises_bind_r. eapply runs_load_name; [done|].
  apply raises_bind_r. eapply runs_load_name; [done|].
  apply raises_bind_r. eapply runs_frame_column; [done|].
  destruct (range !! 0%nat) as [lo|] eqn:Hlo.
  - apply raises_bind_r. eapply runs_subscript; [done|].
    apply raises_bind_r. eapply runs_load_name; [done|].
    apply raises_bind_r. eapply runs_frame_column; [done|].
    apply raises_bind_l. apply raises_subscript. by destruct Hshort.
  - apply raises_bind_l. by apply raises_subscript.
Qed.

Lemma apply_filters_runs sel lo hi st d (df : DataFrame) :
  globals st !! "df" = Some d →
  heap st !! d = Some df →
  date_range sel !! 0%nat = Some lo →
  date_range sel !! 1%nat = Some hi →
  runs (apply_filters sel) st
       (λ _ st', rebinds st (filter (passes sel lo hi) df) st').
Proof.
  intros Hd Hdf Hlo Hhi. unfold apply_filters.
  eapply (wp_filter_prefix sel st d df _
            (λ o, ∃ x st', o = (inr x, st') ∧
               rebinds st (filter (passes sel lo hi) df) st')); [done..|].
  intros st3 Hst3. eapply runs_mono; [by eapply runs_date_stmt|].
  intros [] st' Hst'. rewrite list_filter_filter in Hst'.
  eapply rebinds_eq; [exact Hst'|].
  apply list_filter_iff. intros r; unfold passes; simpl. tauto.
Qed.

Lemma apply_filters_raises sel st d (df : DataFrame) :
  globals st !! "df" = Some d →
  heap st !! d = Some df →
  date_range sel !! 0%nat = None ∨ date_range sel !! 1%nat = None →
  raises (apply_filters sel) st IndexError.
Proof.
  intros Hd Hdf Hshort. unfold apply_filters.
  eapply (wp_filter_prefix sel st d df _ (λ o, o.1 = inl IndexError));
    [done..|].
  intros st3 Hst3. by eapply raises_date_stmt.
Qed.

Lemma apply_filters_unbound sel st :
  frame_of "df" st = None → raises (apply_filters sel) st NameError.
Proof.
  unfold frame_of, apply_filters. intros Hdf.
  apply raises_bind_l.
  destruct (globals st !! "df") as [d|] eqn:Hd; simpl in Hdf.
  - apply raises_bind_r. eapply runs_load_name; [done|].
    apply raises_bind_l, raises_bind_l. by apply raises_deref.
  - apply raises_bind_l. by apply raises_load_name.
Qed.

Lemma apply_filters_frames sel : frames (apply_filters sel).
Proof.
  unfold apply_filters. repeat (apply frames_bind; [|intros ?]);
    try case_bool_decide; auto 20 with frames.
Qed.

(** What [filtered] holds after the block, in every case. *)
Lemma filtered_after_spec sel st :
  filtered_after sel st =
  match frame_of "df" st with
  | None => inl NameError
  | Some df =>
      match date_range sel !! 0%nat, date_range sel !! 1%nat with
      | Some lo, Some hi => inr (filter (passes sel lo hi) df)
      | _, _ => inl IndexError
      end
  end.
Proof.
  unfold filtered_after.
  destruct (frame_of "df" st) as [df|] eqn:Hdf.
  - unfold frame_of in Hdf.
    destruct (globals st !! "df") as [d|] eqn:Hd; [simpl in Hdf|done].
    destruct (date_range sel !! 0%nat) as [lo|] eqn:Hlo;
      [destruct (date_range sel !! 1%nat) as [hi|] eqn:Hhi|].
    + destruct (apply_filters_runs sel lo hi st d df)
        as ([] & st' & -> & _ & f & Hg & Hf); [done..|].
      unfold frame_of. rewrite Hg, lookup_insert_eq. simpl. by rewrite Hf.
    + pose proof (apply_filters_raises sel st d df Hd Hdf (or_intror Hhi)) as He.
      unfold raises in He. destruct (apply_filters sel st) as [[e|x] st'];
        simpl in He; by simplify_eq.
    + pose proof (apply_filters_raises sel st d df Hd Hdf (or_introl Hlo)) as He.
      unfold raises in He. destruct (apply_filters sel st) as [[e|x] st'];
        simpl in He; by simplify_eq.
  - pose proof (apply_filters_unbound sel st Hdf) as He.
    unfold raises in He. destruct (apply_filters sel st) as [[e|x] st'];
      simpl in He; by simplify_eq.
Qed.

Lemma apply_spec (df : DataFrame) sel :
  apply df sel =
  match date_range sel !! 0%nat, date_range sel !! 1%nat with
  | Some lo, Some hi => inr (filter (passes sel lo hi) df)
  | _, _ => inl IndexError
  end.
Proof. unfold apply. by rewrite filtered_after_spec. Qed.

(** ** Facts about minimum, maximum and sorting *)

Lemma filter_none {A} (P : A → Prop) `{∀ x, Decision (P x)} (l : list A) :
  (∀ x, x ∈ l → ¬ P x) → filter P l = [].
Proof.
  induction l as [|x l IH]; intros HP; [done|].
  rewrite filter_cons_False by (apply HP; left).
  apply IH. intros y Hy. apply HP. by right.
Qed.

Section min_max.
Context {K : Type} `{KeyOrder K}.

Lemma foldl_min_le (s : list K) (x : K) :
  let m := foldl (λ m y, if decide (key_le y m) then y else m) x s in
  key_le m x ∧ ∀ y, y ∈ s → key_le m y.
Proof.
  revert x. induction s as [|z s IH]; intros x; simpl.
  - split; [done|]. intros y Hy. by apply elem_of_nil in Hy.
  - destruct (decide (key_le z x)) as [Hzx|Hzx].
    + destruct (IH z) as [Hm Hs]. split; [by etrans|].
      intros y [->|Hy]%elem_of_cons; auto.
    + destruct (IH x) as [Hm Hs]. split; [done|].
      intros y [->|Hy]%elem_of_cons; [|auto].
      destruct (total key_le z x); [done|]. by etrans.
Qed.

Lemma foldl_max_ge (s : list K) (x : K) :
  let m := foldl (λ m y, if decide (key_le m y) then y else m) x s in
  key_le x m ∧ ∀ y, y ∈ s → key_le y m.
Proof.
  revert x. induction s as [|z s IH]; intros x; simpl.
  - split; [done|]. intros y Hy. by apply elem_of_nil in Hy.
  - destruct (decide (key_le x z)) as [Hxz|Hxz].
    + destruct (IH z) as [Hm Hs]. split; [by etrans|].
      intros y [->|Hy]%elem_of_cons; auto.
    + destruct (IH x) as [Hm Hs]. split; [done|].
      intros y [->|Hy]%elem_of_cons; [|auto].
      destruct (total key_le x z); [done|]. by etrans.
Qed.

Lemma series_min_le (s : list K) (m y : K) :
  series_min s = Some m → y ∈ s → key_le m y.
Proof.
  destruct s as [|x s]; [done|]. simpl. intros [= <-].
  destruct (foldl_min_le s x) as [Hx Hs].
  intros [->|Hy]%elem_of_cons; auto.
Qed.

Lemma series_max_ge (s : list K) (m y : K) :
  series_max s = Some m → y ∈ s → key_le y m.
Proof.
  destruct s as [|x s]; [done|]. simpl. intros [= <-].
  destruct (foldl_max_ge s x) as [Hx Hs].
  intros [->|Hy]%elem_of_cons; auto.
Qed.

Lemma foldl_pick_elem_of (f : K → K → K) (s : list K) (x : K) :
  (∀ m y, f m y = m ∨ f m y = y) → foldl f x s ∈ x :: s.
Proof.
  intros Hf. revert x. induction s as [|z s IH]; intros x; simpl; [left|].
  destruct (Hf x z) as [->| ->].
  - specialize (IH x). apply elem_of_cons in IH as [->|?];
      [left|right; by right].
  - right. apply IH.
Qed.

Lemma series_min_elem_of (s : list K) (m : K) :
  series_min s = Some m → m ∈ s.
Proof.
  destruct s as [|x s]; [done|]. simpl. intros [= <-].
  apply foldl_pick_elem_of. intros m y. case_decide; auto.
Qed.

Lemma series_max_elem_of (s : list K) (m : K) :
  series_max s = Some m → m ∈ s.
Proof.
  destruct s as [|x s]; [done|]. simpl. intros [= <-].
  apply foldl_pick_elem_of. intros m y. case_decide; auto.
Qed.

Lemma sorted_elem_of (l : list K) (x : K) : x ∈ sorted l ↔ x ∈ l.
Proof. unfold sorted. by rewrite merge_sort_Permutation. Qed.

End min_max.

Lemma sorted_unique_elem_of {K} `{KeyOrder K} {eqd : EqDecision K}
    (l : list K) (x : K) :
  x ∈ sorted (@unique K eqd l) ↔ x ∈ l.
Proof. by rewrite sorted_elem_of, unique_elem_of. Qed.

(** ** The frame after the filter block *)

Lemma extends_frame_of x st st' (rows : DataFrame) :
  x ≠ "filtered" → extends st st' →
  frame_of x st = Some rows → frame_of x st' = Some rows.
Proof.
  intros Hx [[new Hheap] Hglob]. unfold frame_of. rewrite Hglob by done.
  destruct (globals st !! x) as [l|]; simpl; [|done].
  rewrite Hheap. apply lookup_app_l_Some.
Qed.

(** ** Sorted lists of distinct keys *)

Lemma StronglySorted_weaken {A} (R1 R2 : relation A) (l : list A) :
  (∀ x y, R1 x y → R2 x y) → StronglySorted R1 l → StronglySorted R2 l.
Proof.
  intros Himp. induction 1 as [|x l Hl IH Hx]; constructor; [done|].
  eapply Forall_impl; [exact Hx|]. intros y. apply Himp.
Qed.

Section sorted_facts.
Context {K : Type} `{KeyOrder K}.

Lemma sorted_Sorted (l : list K) : Sorted key_le (sorted l).
Proof. apply Sorted_merge_sort. apply _. Qed.

Lemma sorted_Permutation (l : list K) : sorted l ≡ₚ l.
Proof. apply merge_sort_Permutation. Qed.

Lemma sorted_NoDup (l : list K) : NoDup l → NoDup (sorted l).
Proof. intros Hl. by rewrite sorted_Permutation. Qed.

(** A sorted list without duplicates is strictly ascending. *)
Lemma Sorted_NoDup_strict (l : list K) :
  Sorted key_le l → NoDup l → StronglySorted key_lt l.
Proof.
  intros Hs%(Sorted_StronglySorted key_le) Hnd.
  induction Hs as [|x l Hl IH Hx]; [constructor|].
  apply NoDup_cons in Hnd as [Hxl Hnd].
  constructor; [by apply IH|].
  rewrite Forall_forall in Hx |- *. intros y Hy.
  split; [by apply Hx|]. intros Hyx.
  assert (x = y) as -> by (apply (anti_symm key_le); auto).
  done.
Qed.

End sorted_facts.

(** ** Sums and groups *)


Section groupby_facts.
Context {K : Type} `{KeyOrder K}.
Implicit Types (keyf : Row → K) (df : DataFrame).

(** The rows of a frame, collected key by key over a duplicate-free list
    of keys that covers the frame. *)
Lemma concat_groups keyf (ks : list K) df :
  NoDup ks →
  (∀ r, r ∈ df → keyf r ∈ ks) →
  concat ((λ k, filter (λ r, keyf r = k) df) <$> ks) ≡ₚ df.
Proof.
  intros Hnd. revert df.
  induction Hnd as [|k ks Hk Hnd IH]; intros df Hcover.
  - destruct df as [|r df]; [done|].
    specialize (Hcover r ltac:(left)). by apply elem_of_nil in Hcover.
  - rewrite fmap_cons. simpl.
    etrans; [|apply (filter_app_complement (λ r, keyf r = k) df)].
    f_equiv.
    rewrite <-(IH (filter (λ r, ¬ keyf r = k) df)).
    + apply reflexive_eq. f_equal. apply list_fmap_ext. intros i k' Hk'.
      apply list_elem_of_lookup_2 in Hk'.
      rewrite list_filter_filter. apply list_filter_iff.
      intros r. split; [|tauto]. intros Hr. split; [done|].
      intros Hrk. apply Hk. congruence.
    + intros r [Hne Hr]%list_elem_of_filter.
      specialize (Hcover r Hr). apply elem_of_cons in Hcover as [?|?]; done.
Qed.

Lemma groupby_keys keyf df :
  (groupby keyf df).*1 = sorted (unique (keyf <$> df)).
Proof.
  unfold groupby. rewrite <-list_fmap_compose. apply list_fmap_id.
Qed.

Lemma groupby_groups keyf df :
  (groupby keyf df).*2
  = (λ k, filter (λ r, keyf r = k) df) <$> sorted (unique (keyf <$> df)).
Proof. unfold groupby. by rewrite <-list_fmap_compose. Qed.

Lemma groupby_keys_NoDup keyf df : NoDup (groupby keyf df).*1.
Proof. rewrite groupby_keys. apply sorted_NoDup, unique_NoDup. Qed.

Lemma groupby_keys_elem_of keyf df k :
  k ∈ (groupby keyf df).*1 ↔ ∃ r, r ∈ df ∧ keyf r = k.
Proof.
  rewrite groupby_keys, sorted_unique_elem_of, list_elem_of_fmap.
  split; [intros (r & -> & Hr)|intros (r & Hr & <-)]; by exists r.
Qed.

Lemma groupby_elem_of keyf df k (g : DataFrame) :
  (k, g) ∈ groupby keyf df →
  g = filter (λ r, keyf r = k) df ∧ ∃ r, r ∈ df ∧ keyf r = k.
Proof.
  unfold groupby. intros (k' & [= -> ->] & Hk)%list_elem_of_fmap.
  split; [done|]. apply groupby_keys_elem_of. by rewrite groupby_keys.
Qed.

Lemma groupby_partition keyf df :
  exact_partition keyf df (groupby keyf df).
Proof.
  split.
  - rewrite groupby_groups. apply concat_groups.
    + apply sorted_NoDup, unique_NoDup.
    + intros r Hr. apply (proj2 (sorted_unique_elem_of _ _)).
      by apply list_elem_of_fmap_2.
  - intros k g [-> (r & Hr & Hk)]%groupby_elem_of. split.
    + intros Hnil. eapply (filter_nil_not_elem_of _ _ r); done.
    + by intros r' [Hr' _]%list_elem_of_filter.
Qed.

Lemma agg_sum_keys (col : Row → Qc) (groups : list (K * DataFrame)) :
  (agg_sum col groups).*1 = groups.*1.
Proof. unfold agg_sum. by rewrite <-list_fmap_compose. Qed.

Lemma agg_mean_keys (col : Row → Qc) (groups : list (K * DataFrame)) :
  (agg_mean col groups).*1 = groups.*1.
Proof. unfold agg_mean. by rewrite <-list_fmap_compose. Qed.

Lemma agg_sum_one_row_per_key col keyf df :
  one_row_per_key keyf df (agg_sum col (groupby keyf df)).
Proof.
  unfold one_row_per_key. rewrite agg_sum_keys.
  split; [apply groupby_keys_NoDup|apply groupby_keys_elem_of].
Qed.

Lemma agg_mean_one_row_per_key col keyf df :
  one_row_per_key keyf df (agg_mean col (groupby keyf df)).
Proof.
  unfold one_row_per_key. rewrite agg_mean_keys.
  split; [apply groupby_keys_NoDup|apply groupby_keys_elem_of].
Qed.

End groupby_facts.

(** ** The model on the example data *)

Example load_data_example : load_data parse_iso example_csv = inr example_df.
Proof. reflexivity. Qed.

Example load_data_bad_date :
  load_data parse_iso
    [mkCsvRow "Texas" "Amazon" "Online" "Men's Apparel" "10 Feb 2021"
       (Qc_of_Z 1) (Qc_of_Z 1) (Qc_of_Z 1)]
  = inl ValueError.
Proof. reflexivity. Qed.

Example option_lists_example :
  states example_df = ["All"; "New York"; "Texas"] ∧
  retailers example_df = ["Amazon"; "Foot Locker"] ∧
  methods example_df = ["Online"; "Outlet"].
Proof. repeat split; reflexivity. Qed.

Example apply_outlet_only :
  apply example_df
    (mkSelection "All" ["Amazon"; "Foot Locker"] ["Outlet"]
       [mkTimestamp 2021 1 1; mkTimestamp 2021 12 31])
  = inr (filter (λ r, SalesMethod r = "Outlet") example_df).
Proof. reflexivity. Qed.

Example apply_one_state :
  apply example_df
    (mkSelection "Texas" ["Amazon"; "Foot Locker"] ["Online"; "Outlet"]
       [mkTimestamp 2021 1 1; mkTimestamp 2021 12 31])
  = inr (filter (λ r, State r = "Texas") example_df).
Proof. reflexivity. Qed.

(** While only the first date has been picked the tuple has one entry, and
    [date_range[1]] raises. *)
Example apply_half_picked_range :
  apply example_df
    (mkSelection "All" ["Amazon"; "Foot Locker"] ["Online"; "Outlet"]
       [mkTimestamp 2021 1 1])
  = inl IndexError.
Proof. reflexivity. Qed.

Example kpis_example :
  this (total_sales example_df) = 350%Q ∧
  this (total_profit example_df) = 120%Q ∧
  avg_margin example_df = Num (Qc_of_Z 30).
Proof.
  split; [reflexivity|]. split; [reflexivity|].
  unfold avg_margin. simpl. f_equal. by apply Qc_is_canon.
Qed.

Example sales_method_example :
  prod_map id this <$> sales_method example_df
  = [("Online", 300%Q); ("Outlet", 50%Q)].
Proof. reflexivity. Qed.

Example monthly_sales_example :
  prod_map id this <$> monthly_sales example_df
  = [((mkTimestamp 2021 1 1, "Online"), 100%Q);
     ((mkTimestamp 2021 1 1, "Outlet"), 50%Q);
     ((mkTimestamp 2021 2 1, "Online"), 200%Q)].
Proof. reflexivity. Qed.

Example product_sales_example :
  prod_map id this <$> product_sales example_df
  = [(("Men's Street Footwear", "Online"), 300%Q);
     (("Women's Apparel", "Outlet"), 50%Q)].
Proof. reflexivity. Qed.

(** ** Sums for an addition that is associative and commutative *)

Section exact_addition.
Context {N : Type} (add : N → N → N) (zero : N).
Context `{!Assoc (=) add, !Comm (=) add, !LeftId (=) zero add}.

Lemma foldl_add_start (z : N) (s : list N) :
  foldl add z s = add z (sum_in_order add zero s).
Proof.
  unfold sum_in_order. revert z. induction s as [|x s IH]; intros z; simpl.
  - by rewrite (comm add), (left_id zero add).
  - rewrite (IH (add z x)), (IH (add zero x)), (left_id zero add).
    by rewrite (assoc add).
Qed.

Lemma sum_in_order_cons (x : N) (s : list N) :
  sum_in_order add zero (x :: s) = add x (sum_in_order add zero s).
Proof.
  unfold sum_in_order at 1. simpl.
  by rewrite (left_id zero add), foldl_add_start.
Qed.

Lemma sum_in_order_app (s1 s2 : list N) :
  sum_in_order add zero (s1 ++ s2)
  = add (sum_in_order add zero s1) (sum_in_order add zero s2).
Proof.
  unfold sum_in_order at 1. rewrite foldl_app.
  fold (sum_in_order add zero s1). apply foldl_add_start.
Qed.

Lemma sum_in_order_Permutation (s1 s2 : list N) :
  s1 ≡ₚ s2 → sum_in_order add zero s1 = sum_in_order add zero s2.
Proof.
  induction 1 as [|x s1 s2 _ IH|x y s|s1 s2 s3 _ IH1 _ IH2].
  - done.
  - by rewrite !sum_in_order_cons, IH.
  - rewrite !sum_in_order_cons, !(assoc add). f_equal. apply (comm add).
  - by rewrite IH1.
Qed.

(** With such an addition the sums of the groups add up to the sum of the
    column, whatever the grouping key. *)
Lemma grouped_sums_total {K} `{KeyOrder K} (val : Row → N) (keyf : Row → K)
    (df : DataFrame) :
  sum_in_order add zero (grouped_sums add zero val keyf df).*2
  = sum_in_order add zero (val <$> df).
Proof.
  transitivity (sum_in_order add zero (val <$> concat (groupby keyf df).*2)).
  - unfold grouped_sums.
    induction (groupby keyf df) as [|g gs IH]; [done|].
    rewrite !fmap_cons. cbn [concat snd].
    rewrite fmap_app, sum_in_order_app, sum_in_order_cons. f_equal.
    exact IH.
  - apply sum_in_order_Permutation. f_equiv. apply groupby_partition.
Qed.
End exact_addition.

(** * The claims about the filter block *)

(** C1.  For every data set and every selection with date tuple
    [(lo, hi)], the block ends normally and a row is in [filtered] exactly
    when it is a row of [df] whose State equals the selected state (or
    ["All"] is selected), whose Retailer is among the selected retailers,
    whose Sales Method is among the selected methods, and whose Invoice
    Date lies between [lo] and [hi], both ends included. *)
Theorem filtered_membership (df : DataFrame) region rs ms lo hi :
  ∃ filtered,
    apply df (mkSelection region rs ms [lo; hi]) = inr filtered ∧
    ∀ r, r ∈ filtered ↔
         r ∈ df ∧
         (State r = region ∨ region = "All") ∧
         Retailer r ∈ rs ∧
         SalesMethod r ∈ ms ∧
         Timestamp.le lo (InvoiceDate r) ∧ Timestamp.le (InvoiceDate r) hi.
Proof.
  rewrite apply_spec. simpl. eexists. split; [done|].
  intros r. rewrite list_elem_of_filter. unfold passes. simpl. tauto.
Qed.

(** C4.  When the first date of the tuple is after the second, the block
    ends normally with an empty [filtered]. *)
Theorem inverted_interval_empty (df : DataFrame) region rs ms lo hi :
  key_lt hi lo →
  apply df (mkSelection region rs ms [lo; hi]) = inr [].
Proof.
  intros [_ Hnle]. rewrite apply_spec. simpl. f_equal.
  apply filter_none. intros r _ (_ & _ & _ & Hlo & Hhi). simpl in *.
  apply Hnle. by etrans.
Qed.

Lemma inverted_interval_empty_witness :
  key_lt (mkTimestamp 2021 1 1) (mkTimestamp 2021 3 1) ∧
  apply example_df
    (mkSelection "All" ["Amazon"; "Foot Locker"] ["Online"; "Outlet"]
                 [mkTimestamp 2021 3 1; mkTimestamp 2021 1 1]) = inr [].
Proof.
  assert (key_lt (mkTimestamp 2021 1 1) (mkTimestamp 2021 3 1)) as Hlt.
  { split; vm_compute; [exact I|intros []]. }
  split; [exact Hlt|]. apply (inverted_interval_empty example_df). exact Hlt.
Defined.

(** C3.  When [filtered] is empty, and so whenever no retailer is
    selected, Total Sales and Total Profit are 0 and the average margin is
    [NaN]: a value, not the number 0 and not an exception. *)
Theorem empty_subset_kpis (df : DataFrame) sel filtered :
  apply df sel = inr filtered →
  selected_retailers sel = [] ∨ filtered = [] →
  filtered = [] ∧
  total_sales filtered = 0%Qc ∧
  total_profit filtered = 0%Qc ∧
  avg_margin filtered = NaN ∧
  avg_margin filtered ≠ Num 0%Qc.
Proof.
  intros Happly Hempty.
  assert (filtered = []) as ->.
  { destruct Hempty as [Hrs|Hnil]; [|done].
    rewrite apply_spec in Happly.
    destruct (date_range sel !! 0%nat) as [lo|]; [|done].
    destruct (date_range sel !! 1%nat) as [hi|]; [|done].
    injection Happly as <-. apply filter_none.
    intros r _ (_ & Hr & _). rewrite Hrs in Hr. by apply elem_of_nil in Hr. }
  done.
Qed.

Lemma empty_subset_kpis_witness :
  let sel := mkSelection "All" [] ["Online"; "Outlet"]
               [mkTimestamp 2021 1 15; mkTimestamp 2021 2 10] in
  apply example_df sel = inr [] ∧
  total_sales [] = 0%Qc ∧ total_profit [] = 0%Qc ∧ avg_margin [] = NaN.
Proof.
  intros sel.
  assert (apply example_df sel = inr []) as Happly by reflexivity.
  split; [exact Happly|].
  destruct (empty_subset_kpis example_df sel [] Happly (or_introl eq_refl))
    as (_ & Hs & Hp & Hm & _).
  auto.
Defined.

(** C6.  The rows bound to [filtered] are a function of the rows of [df]
    and of the selection alone: two states that hold the same data set
    give the same result, namely [apply df sel], whatever else their heaps
    and globals contain, and running the block a second time gives the
    result of the first run. *)
Theorem filtered_deterministic sel st1 st2 (df : DataFrame) :
  frame_of "df" st1 = Some df →
  frame_of "df" st2 = Some df →
  filtered_after sel st1 = filtered_after sel st2 ∧
  filtered_after sel st1 = apply df sel ∧
  filtered_after sel (apply_filters sel st1).2 = filtered_after sel st1.
Proof.
  intros H1 H2.
  assert (frame_of "df" (apply_filters sel st1).2 = Some df) as H1'.
  { eapply extends_frame_of; [done|apply apply_filters_frames|done]. }
  unfold apply. rewrite !filtered_after_spec, H1, H2, H1'. done.
Qed.

Lemma filtered_deterministic_witness :
  frame_of "df" example_state = Some example_df ∧
  frame_of "df" (loaded example_df) = Some example_df ∧
  filtered_after example_selection example_state
    = filtered_after example_selection (loaded example_df) ∧
  filtered_after example_selection example_state
    = apply example_df example_selection ∧
  filtered_after example_selection
      (apply_filters example_selection example_state).2
    = filtered_after example_selection example_state.
Proof.
  assert (frame_of "df" example_state = Some example_df) as H1
    by reflexivity.
  assert (frame_of "df" (loaded example_df) = Some example_df) as H2
    by reflexivity.
  split; [exact H1|]. split; [exact H2|].
  exact (filtered_deterministic example_selection example_state
           (loaded example_df) example_df H1 H2).
Defined.

(** C7.  Running the filter block, to its end or to an exception, leaves
    the data set as it was: [df] is bound to the same object with the same
    rows, every object that existed before is unchanged, and no name other
    than [filtered] is rebound. *)
Theorem dataset_unchanged sel st (df : DataFrame) :
  frame_of "df" st = Some df →
  frame_of "df" (apply_filters sel st).2 = Some df ∧
  globals (apply_filters sel st).2 !! "df" = globals st !! "df" ∧
  (∀ l rows, heap st !! l = Some rows →
             heap (apply_filters sel st).2 !! l = Some rows) ∧
  (∀ x, x ≠ "filtered" →
        globals (apply_filters sel st).2 !! x = globals st !! x).
Proof.
  intros Hdf. pose proof (apply_filters_frames sel st) as Hext.
  split; [by eapply extends_frame_of|].
  destruct Hext as [[new Hheap] Hglob].
  split; [by apply Hglob|]. split; [|done].
  intros l rows Hl. rewrite Hheap. by apply lookup_app_l_Some.
Qed.

Lemma dataset_unchanged_witness :
  frame_of "df" example_state = Some example_df ∧
  frame_of "df" (apply_filters example_selection example_state).2
    = Some example_df.
Proof.
  assert (frame_of "df" example_state = Some example_df) as Hdf
    by reflexivity.
  split; [exact Hdf|].
  exact (proj1 (dataset_unchanged example_selection example_state
                  example_df Hdf)).
Defined.

(** C10.  With the widgets at their defaults -- ["All"], every retailer
    and every method of the data set, and the tuple (earliest invoice
    date, latest invoice date) -- the block ends with [filtered] holding
    exactly the rows of [df]. *)
Theorem default_selection_identity (df : DataFrame) sel :
  default_selection df = Some sel →
  apply df sel = inr df.
Proof.
  unfold default_selection, min_date, max_date. intros Hsel.
  destruct (series_min (InvoiceDate <$> df)) as [lo|] eqn:Hlo; [|done].
  destruct (series_max (InvoiceDate <$> df)) as [hi|] eqn:Hhi; [|done].
  simpl in Hsel. injection Hsel as <-.
  rewrite apply_spec. simpl. f_equal. apply filter_all.
  intros r Hr. unfold passes, retailers, methods.
  cbn [selected_state selected_retailers selected_methods].
  split; [by right|].
  split; [apply (proj2 (sorted_unique_elem_of _ _));
          by apply list_elem_of_fmap_2|].
  split; [apply (proj2 (sorted_unique_elem_of _ _));
          by apply list_elem_of_fmap_2|].
  split.
  - eapply (series_min_le (InvoiceDate <$> df)); [done|].
    by apply list_elem_of_fmap_2.
  - eapply (series_max_ge (InvoiceDate <$> df)); [done|].
    by apply list_elem_of_fmap_2.
Qed.

Lemma default_selection_identity_witness :
  default_selection example_df = Some example_selection ∧
  apply example_df example_selection = inr example_df.
Proof.
  assert (default_selection example_df = Some example_selection) as Hsel
    by reflexivity.
  split; [exact Hsel|]. by apply default_selection_identity.
Defined.

(** * The claims about the loader and the option lists *)

Lemma zip_fmap_snd {A B} (g : A → B) (l : list A) (p : A * B) :
  p ∈ zip l (g <$> l) → p.2 = g p.1.
Proof.
  induction l as [|x l IH]; simpl; [by intros ?%elem_of_nil|].
  intros [->|Hp]%elem_of_cons; [done|by apply IH].
Qed.

(** C9.  Whatever [pd.to_datetime] makes of the text of a cell, every row
    that [load_data] returns has as Month the first day of the calendar
    month of its Invoice Date: same year, same month, day 1. *)
Theorem month_is_first_of_month (to_datetime : string → option Timestamp)
    (csv : list CsvRow) (df : DataFrame) (r : Row) :
  load_data to_datetime csv = inr df →
  r ∈ df →
  Month r = {| year := year (InvoiceDate r);
               month := month (InvoiceDate r);
               day := 1 |}.
Proof.
  unfold load_data. intros Hload Hr.
  destruct (mapM to_datetime (csv_InvoiceDate <$> csv)) as [dates|]; [|done].
  injection Hload as <-. unfold assign_columns in Hr.
  apply elem_of_zip_with in Hr as (c & dm & -> & _ & Hdm).
  apply zip_fmap_snd in Hdm. simpl. by rewrite Hdm.
Qed.

Lemma month_is_first_of_month_witness :
  load_data parse_iso example_csv = inr example_df ∧
  ∀ r, r ∈ example_df →
       Month r = {| year := year (InvoiceDate r);
                    month := month (InvoiceDate r);
                    day := 1 |}.
Proof.
  assert (load_data parse_iso example_csv = inr example_df) as Hload
    by reflexivity.
  split; [exact Hload|]. intros r Hr.
  exact (month_is_first_of_month parse_iso example_csv example_df r Hload Hr).
Defined.

(** C8, as stated, fails for the State list: with a single invoice from
    Alabama the list [states] is ["All"; "Alabama"], which is not in
    ascending order and holds a value no row has. *)
Lemma states_not_sorted_values :
  ¬ (Sorted String.le (states alabama_df) ∧
     NoDup (states alabama_df) ∧
     ∀ v, v ∈ states alabama_df ↔ ∃ r, r ∈ alabama_df ∧ State r = v).
Proof.
  intros (Hsorted & _ & _).
  change (states alabama_df) with ["All"; "Alabama"] in Hsorted.
  inversion Hsorted as [|x l _ Hhd]; subst.
  inversion Hhd as [|y l' Hle]; subst.
  vm_compute in Hle. exact Hle.
Qed.

(** C8, amended.  [retailers] and [methods] are the distinct values of
    their column in ascending lexicographic order, without duplicates;
    [states] is the word "All" followed by the distinct values of the
    State column in ascending lexicographic order, without duplicates. *)
Theorem option_lists_sorted (df : DataFrame) :
  (∃ l, states df = "All" :: l ∧
        StronglySorted (strict String.le) l ∧ NoDup l ∧
        ∀ v, v ∈ l ↔ ∃ r, r ∈ df ∧ State r = v) ∧
  (StronglySorted (strict String.le) (retailers df) ∧ NoDup (retailers df) ∧
   ∀ v, v ∈ retailers df ↔ ∃ r, r ∈ df ∧ Retailer r = v) ∧
  (StronglySorted (strict String.le) (methods df) ∧ NoDup (methods df) ∧
   ∀ v, v ∈ methods df ↔ ∃ r, r ∈ df ∧ SalesMethod r = v).
Proof.
  assert (∀ col : Row → string,
            let l := sorted (unique (col <$> df)) in
            StronglySorted (strict String.le) l ∧ NoDup l ∧
            ∀ v, v ∈ l ↔ ∃ r, r ∈ df ∧ col r = v) as Hcol.
  { intros col l.
    assert (NoDup l) as Hnd by apply sorted_NoDup, unique_NoDup.
    split; [|split; [done|]].
    - exact (Sorted_NoDup_strict (K:=string) l (sorted_Sorted _) Hnd).
    - intros v. unfold l. rewrite sorted_unique_elem_of, list_elem_of_fmap.
      split; [intros (r & -> & Hr)|intros (r & Hr & <-)]; by exists r. }
  split; [|split]; [|apply Hcol..].
  eexists. split; [reflexivity|]. apply Hcol.
Qed.

(** * The claims about the summaries *)

(** C2, as stated, fails in the arithmetic of the code.  On three invoices
    of 0.1, 0.2 and 0.3, the last two by the same method, the widgets at
    their defaults keep every row; Total Sales, added in binary64 in row
    order, is 0.6000000000000001, while the two per-method totals 0.1 and
    0.5 add up to 0.6. *)
Lemma sum_decomposition_fails_in_binary64 :
  ∃ sel filtered,
    default_selection rounding_df = Some sel ∧
    apply rounding_df sel = inr filtered ∧
    total_sales_binary64 filtered
    ≠ sum_in_order PrimFloat.add 0%float (sales_method_binary64 filtered).*2.
Proof.
  eexists _, rounding_df. split; [reflexivity|]. split; [reflexivity|].
  intros Heq.
  apply (f_equal (λ x, PrimFloat.eqb x (total_sales_binary64 rounding_df)))
    in Heq.
  vm_compute in Heq. discriminate.
Qed.

(** C2, amended.  For the frame [filtered] that the filter block produces,
    each of the four summaries has one row for each key combination that
    occurs in [filtered] and no row for one that does not, and the groups
    behind the summaries hold every row of [filtered] once, each in the
    group of its own key.  So the per-method totals add up, between them,
    exactly the amounts that Total Sales adds up; the two results are
    equal for every addition that is associative and commutative, as the
    addition of exact decimals is and the addition of binary64 is not. *)
Theorem grouping_partitions_amounts (df : DataFrame) sel
    (filtered : DataFrame) :
  apply df sel = inr filtered →
  (one_row_per_key SalesMethod filtered (sales_method filtered) ∧
   exact_partition SalesMethod filtered (groupby SalesMethod filtered)) ∧
  (one_row_per_key (λ r, (Month r, SalesMethod r)) filtered
                   (monthly_sales filtered) ∧
   exact_partition (λ r, (Month r, SalesMethod r)) filtered
                   (groupby (λ r, (Month r, SalesMethod r)) filtered)) ∧
  one_row_per_key SalesMethod filtered (margin filtered) ∧
  (one_row_per_key (λ r, (Product r, SalesMethod r)) filtered
                   (product_sales filtered) ∧
   exact_partition (λ r, (Product r, SalesMethod r)) filtered
                   (groupby (λ r, (Product r, SalesMethod r)) filtered)) ∧
  concat ((λ g : string * DataFrame, TotalSales <$> g.2)
            <$> groupby SalesMethod filtered)
    ≡ₚ TotalSales <$> filtered ∧
  ∀ (N : Type) (add : N → N → N) (zero : N) (val : Row → N),
    Assoc (=) add → Comm (=) add → LeftId (=) zero add →
    sum_in_order add zero (val <$> filtered)
    = sum_in_order add zero
        (grouped_sums add zero val SalesMethod filtered).*2.
Proof.
  intros _. unfold sales_method, monthly_sales, margin, product_sales.
  assert (∀ K (HK : KeyOrder K) (keyf : Row → K),
            one_row_per_key keyf filtered
              (agg_sum TotalSales (groupby keyf filtered)) ∧
            exact_partition keyf filtered (groupby keyf filtered)) as Hsum.
  { intros K HK keyf.
    split; [apply agg_sum_one_row_per_key|apply groupby_partition]. }
  split; [apply Hsum|]. split; [apply Hsum|].
  split; [apply agg_mean_one_row_per_key|]. split; [apply Hsum|].
  split.
  - destruct (groupby_partition SalesMethod filtered) as [Hperm _].
    rewrite <-Hperm at 2. clear Hperm.
    induction (groupby SalesMethod filtered) as [|g gs IH]; [done|].
    rewrite !fmap_cons. cbn [concat snd]. rewrite fmap_app.
    f_equiv. exact IH.
  - intros N add zero val Hassoc Hcomm Hid. symmetry.
    by apply grouped_sums_total.
Qed.

Lemma grouping_partitions_amounts_witness :
  apply example_df example_selection = inr example_df ∧
  sum_in_order Z.add 0 ((λ r, Qnum (TotalSales r)) <$> example_df)
  = sum_in_order Z.add 0
      (grouped_sums Z.add 0 (λ r, Qnum (TotalSales r)) SalesMethod
         example_df).*2.
Proof.
  assert (apply example_df example_selection = inr example_df) as Happly
    by reflexivity.
  split; [exact Happly|].
  destruct (grouping_partitions_amounts example_df example_selection
              example_df Happly) as (_ & _ & _ & _ & _ & Hexact).
  apply (Hexact Z Z.add 0 (λ r, Qnum (TotalSales r))); apply _.
Defined.




(** * Further properties of the side bar and the filter block *)

(** X3.  [min_date] and [max_date] are undefined for an empty frame; for a
    frame with rows they are Invoice Dates of the frame and every Invoice
    Date lies between them. *)
Theorem min_max_date_bounds (df : DataFrame) :
  match min_date df, max_date df with
  | Some lo, Some hi =>
      df ≠ [] ∧
      lo ∈ InvoiceDate <$> df ∧ hi ∈ InvoiceDate <$> df ∧
      ∀ r, r ∈ df →
           Timestamp.le lo (InvoiceDate r) ∧ Timestamp.le (InvoiceDate r) hi
  | None, None => df = []
  | _, _ => False
  end.
Proof.
  unfold min_date, max_date.
  destruct df as [|r0 df]; [done|].
  destruct (series_min (InvoiceDate <$> r0 :: df)) as [lo|] eqn:Hlo; [|done].
  destruct (series_max (InvoiceDate <$> r0 :: df)) as [hi|] eqn:Hhi; [|done].
  split; [done|].
  split; [by eapply series_min_elem_of|].
  split; [by eapply series_max_elem_of|].
  intros r Hr. split.
  - exact (series_min_le (InvoiceDate <$> r0 :: df) lo (InvoiceDate r) Hlo
             (list_elem_of_fmap_2 InvoiceDate _ _ Hr)).
  - exact (series_max_ge (InvoiceDate <$> r0 :: df) hi (InvoiceDate r) Hhi
             (list_elem_of_fmap_2 InvoiceDate _ _ Hr)).
Qed.

(** X4.  While the date tuple has fewer than two entries the filter block
    raises IndexError, whatever the data and the other three widgets
    hold. *)
Theorem short_date_range_raises (df : DataFrame) sel :
  (length (date_range sel) < 2)%nat →
  apply df sel = inl IndexError.
Proof.
  intros Hlen. rewrite apply_spec.
  destruct (date_range sel) as [|lo [|hi rest]]; simpl in *; [done..|lia].
Qed.

Lemma short_date_range_raises_witness :
  (length [mkTimestamp 2021 1 1] < 2)%nat ∧
  apply example_df
    (mkSelection "All" ["Amazon"; "Foot Locker"] ["Online"; "Outlet"]
       [mkTimestamp 2021 1 1])
  = inl IndexError.
Proof.
  assert (length [mkTimestamp 2021 1 1] < 2)%nat as Hlen by (simpl; lia).
  split; [exact Hlen|].
  exact (short_date_range_raises example_df
           (mkSelection "All" ["Amazon"; "Foot Locker"] ["Online"; "Outlet"]
              [mkTimestamp 2021 1 1]) Hlen).
Defined.

(** X5.  [filtered] is a sub-list of [df]: its rows are rows of [df], in
    the order of [df], none repeated or invented; so it is never longer
    than [df]. *)
Theorem filtered_sublist (df : DataFrame) sel (filtered : DataFrame) :
  apply df sel = inr filtered →
  filtered `sublist_of` df ∧ (length filtered ≤ length df)%nat.
Proof.
  rewrite apply_spec. intros Happly.
  destruct (date_range sel !! 0%nat) as [lo|]; [|done].
  destruct (date_range sel !! 1%nat) as [hi|]; [|done].
  injection Happly as <-. split; [apply sublist_filter|apply length_filter].
Qed.

Lemma filtered_sublist_witness :
  apply example_df example_selection = inr example_df ∧
  example_df `sublist_of` example_df.
Proof.
  assert (apply example_df example_selection = inr example_df) as Happly
    by reflexivity.
  split; [exact Happly|].
  exact (proj1 (filtered_sublist example_df example_selection example_df
                  Happly)).
Defined.

(** X6.  Filtering is idempotent: the filter block run on its own result
    with the same selection returns that result. *)
Theorem filter_twice (df : DataFrame) sel (filtered : DataFrame) :
  apply df sel = inr filtered →
  apply filtered sel = inr filtered.
Proof.
  rewrite !apply_spec. intros Happly.
  destruct (date_range sel !! 0%nat) as [lo|]; [|done].
  destruct (date_range sel !! 1%nat) as [hi|]; [|done].
  injection Happly as <-. f_equal.
  apply filter_all. by intros r [Hr _]%list_elem_of_filter.
Qed.

Lemma filter_twice_witness :
  let sel := mkSelection "Texas" ["Amazon"] ["Online"; "Outlet"]
               [mkTimestamp 2021 1 1; mkTimestamp 2021 12 31] in
  let filtered := filter (λ r, State r = "Texas") example_df in
  apply example_df sel = inr filtered ∧ apply filtered sel = inr filtered.
Proof.
  intros sel filtered.
  assert (apply example_df sel = inr filtered) as Happly by reflexivity.
  split; [exact Happly|].
  exact (filter_twice example_df sel filtered Happly).
Defined.

(** X7.  Widening a selection never loses a row: if the second selection
    takes "All" or the same state, at least the same retailers and
    methods, and a date interval that contains the first one, then the
    rows of the first result form a sub-list of the second result. *)
Theorem wider_selection_keeps_rows (df : DataFrame)
    region rs ms lo hi region' rs' ms' lo' hi' :
  region' = "All" ∨ region' = region →
  rs ⊆ rs' →
  ms ⊆ ms' →
  Timestamp.le lo' lo →
  Timestamp.le hi hi' →
  ∃ filtered filtered',
    apply df (mkSelection region rs ms [lo; hi]) = inr filtered ∧
    apply df (mkSelection region' rs' ms' [lo'; hi']) = inr filtered' ∧
    filtered `sublist_of` filtered'.
Proof.
  intros Hregion Hrs Hms Hlo Hhi. rewrite !apply_spec. simpl.
  eexists _, _. split; [done|]. split; [done|].
  rewrite <-(list_filter_filter_l
               (passes (mkSelection region rs ms [lo; hi]) lo hi)
               (passes (mkSelection region' rs' ms' [lo'; hi']) lo' hi')).
  - apply sublist_filter.
  - intros r (Hst & Hr & Hm & Hge & Hle). unfold passes; simpl in *.
    split; [destruct Hregion as [->| ->]; tauto|].
    split; [by apply Hrs|]. split; [by apply Hms|].
    split; by etrans.
Qed.

Lemma wider_selection_keeps_rows_witness :
  ∃ filtered filtered',
    apply example_df
      (mkSelection "Texas" ["Amazon"] ["Online"]
         [mkTimestamp 2021 2 1; mkTimestamp 2021 2 10]) = inr filtered ∧
    apply example_df example_selection = inr filtered' ∧
    filtered `sublist_of` filtered'.
Proof.
  apply (wider_selection_keeps_rows example_df
           "Texas" ["Amazon"] ["Online"]
           (mkTimestamp 2021 2 1) (mkTimestamp 2021 2 10)
           "All" ["Amazon"; "Foot Locker"] ["Online"; "Outlet"]
           (mkTimestamp 2021 1 15) (mkTimestamp 2021 2 10)).
  - by left.
  - intros x Hx%list_elem_of_singleton. subst. left.
  - intros x Hx%list_elem_of_singleton. subst. left.
  - vm_compute. exact I.
  - vm_compute. exact I.
Defined.

Lemma filter_ext_in {A} (P Q : A → Prop)
    `{∀ x, Decision (P x), ∀ x, Decision (Q x)} (l : list A) :
  (∀ x, x ∈ l → P x ↔ Q x) → filter P l = filter Q l.
Proof.
  induction l as [|x l IH]; intros Hext; [done|].
  rewrite !filter_cons.
  assert (filter P l = filter Q l) as ->
    by (apply IH; intros y Hy; apply Hext; by right).
  destruct (decide (P x)) as [HP|HP], (decide (Q x)) as [HQ|HQ]; try done;
    exfalso; apply (Hext x ltac:(left)) in HP || apply (Hext x ltac:(left)) in HQ;
    done.
Qed.

(** The default selection, spelled out, and what every row satisfies. *)
Lemma default_selection_inv (df : DataFrame) sel :
  default_selection df = Some sel →
  ∃ lo hi,
    sel = mkSelection "All" (retailers df) (methods df) [lo; hi] ∧
    ∀ r, r ∈ df →
         Retailer r ∈ retailers df ∧ SalesMethod r ∈ methods df ∧
         Timestamp.le lo (InvoiceDate r) ∧ Timestamp.le (InvoiceDate r) hi.
Proof.
  unfold default_selection, min_date, max_date. intros Hsel.
  destruct (series_min (InvoiceDate <$> df)) as [lo|] eqn:Hlo; [|done].
  destruct (series_max (InvoiceDate <$> df)) as [hi|] eqn:Hhi; [|done].
  simpl in Hsel. injection Hsel as <-. exists lo, hi. split; [done|].
  intros r Hr. unfold retailers, methods.
  split; [apply (proj2 (sorted_unique_elem_of _ _));
          by apply list_elem_of_fmap_2|].
  split; [apply (proj2 (sorted_unique_elem_of _ _));
          by apply list_elem_of_fmap_2|].
  split.
  - exact (series_min_le (InvoiceDate <$> df) lo (InvoiceDate r) Hlo
             (list_elem_of_fmap_2 InvoiceDate _ _ Hr)).
  - exact (series_max_ge (InvoiceDate <$> df) hi (InvoiceDate r) Hhi
             (list_elem_of_fmap_2 InvoiceDate _ _ Hr)).
Qed.

(** X8.  Every state the select box offers besides "All" has data: with
    the other widgets at their defaults, selecting it gives exactly the
    rows of [df] from that state, and there is at least one. *)
Theorem offered_state_has_rows (df : DataFrame) sel v :
  default_selection df = Some sel →
  v ∈ states df →
  v ≠ "All" →
  apply df {| selected_state := v;
              selected_retailers := selected_retailers sel;
              selected_methods := selected_methods sel;
              date_range := date_range sel |}
  = inr (filter (λ r, State r = v) df) ∧
  filter (λ r, State r = v) df ≠ [].
Proof.
  intros Hsel Hv Hall.
  apply default_selection_inv in Hsel as (lo & hi & -> & Hpass).
  split.
  - rewrite apply_spec. simpl. f_equal.
    apply filter_ext_in. intros r Hr. unfold passes. simpl. split.
    + intros ([Hst|Hst] & _); [done|by destruct Hall].
    + intros Hst. split; [by left|]. by apply Hpass.
  - unfold states in Hv. apply elem_of_cons in Hv as [->|Hv]; [done|].
    apply sorted_unique_elem_of, list_elem_of_fmap in Hv as (r & -> & Hr).
    intros Hnil. eapply (filter_nil_not_elem_of _ _ r); done.
Qed.

Lemma offered_state_has_rows_witness :
  default_selection example_df = Some example_selection ∧
  "Texas" ∈ states example_df ∧
  "Texas" ≠ "All" ∧
  filter (λ r, State r = "Texas") example_df ≠ [].
Proof.
  assert (default_selection example_df = Some example_selection) as Hsel
    by reflexivity.
  assert ("Texas" ∈ states example_df) as Hin
    by (right; right; left).
  assert ("Texas" ≠ "All") as Hne by discriminate.
  split; [exact Hsel|]. split; [exact Hin|]. split; [exact Hne|].
  exact (proj2 (offered_state_has_rows example_df example_selection "Texas"
                  Hsel Hin Hne)).
Defined.

(** * Further properties of the summaries *)

Lemma filter_fmap_pre {A B} (h : A → B) (P : B → Prop)
    `{∀ y, Decision (P y)} (l : list A) :
  filter P (h <$> l) = h <$> filter (λ x, P (h x)) l.
Proof.
  induction l as [|x l IH]; [done|].
  rewrite fmap_cons, !filter_cons, IH. by destruct (decide (P (h x))).
Qed.

Section marginal.
Context {A B : Type} `{KeyOrder A, KeyOrder B}.

(** In a grouping by two keys, the groups with a given second key hold,
    between them, the rows of the frame with that key, each once. *)
Lemma groupby_marginal (f : Row → A) (g : Row → B) (df : DataFrame) (b : B) :
  concat (filter (λ grp : (A * B) * DataFrame, grp.1.2 = b)
                 (groupby (λ r, (f r, g r)) df)).*2
  ≡ₚ filter (λ r, g r = b) df.
Proof.
  set (keyf := λ r : Row, (f r, g r)).
  set (sub := filter (λ r, g r = b) df).
  set (ks := filter (λ k : A * B, k.2 = b) (sorted (unique (keyf <$> df)))).
  assert ((filter (λ grp : (A * B) * DataFrame, grp.1.2 = b)
                  (groupby keyf df)).*2
          = (λ k, filter (λ r, keyf r = k) sub) <$> ks) as ->.
  { unfold groupby.
    rewrite (filter_fmap_pre _ (λ grp : (A * B) * DataFrame, grp.1.2 = b)).
    rewrite <-list_fmap_compose. fold ks.
    apply list_fmap_ext. intros i k Hk. simpl.
    apply list_elem_of_lookup_2, list_elem_of_filter in Hk as [Hkb _].
    unfold sub. rewrite list_filter_filter.
    apply list_filter_iff. intros r. split; [|tauto].
    intros Hr. split; [done|]. unfold keyf in Hr. by rewrite <-Hkb, <-Hr. }
  apply concat_groups.
  - apply NoDup_filter, sorted_NoDup, unique_NoDup.
  - intros r [Hgb Hr]%list_elem_of_filter. apply list_elem_of_filter.
    split; [done|]. apply (proj2 (sorted_unique_elem_of _ _)).
    by apply list_elem_of_fmap_2.
Qed.

(** The keys of a summary by two keys ascend in the first key and, for
    equal first keys, in the second. *)
Lemma groupby_pair_keys_sorted (f : Row → A) (g : Row → B) (df : DataFrame) :
  StronglySorted
    (λ p q, strict key_le p.1 q.1 ∨ (p.1 = q.1 ∧ strict key_le p.2 q.2))
    (groupby (λ r, (f r, g r)) df).*1.
Proof.
  rewrite groupby_keys.
  eapply StronglySorted_weaken;
    [|apply Sorted_NoDup_strict;
      [apply sorted_Sorted|apply sorted_NoDup, unique_NoDup]].
  intros p q [[Hlt|[Heq Hle]] Hnle]; [by left|]. right. split; [done|].
  split; [done|]. intros Hge. apply Hnle. right. by split.
Qed.
End marginal.

(** X10.  The groups of the month-by-method table that belong to one
    method hold, between them, exactly the rows of [filtered] with that
    method, each once: the rows behind the method's entry in
    [sales_method].  The same holds for the product-by-method table. *)
Theorem method_rows_are_marginal (filtered : DataFrame) (m : string) :
  concat (filter (λ grp : (Timestamp * string) * DataFrame, grp.1.2 = m)
                 (groupby (λ r, (Month r, SalesMethod r)) filtered)).*2
  ≡ₚ filter (λ r, SalesMethod r = m) filtered ∧
  concat (filter (λ grp : (string * string) * DataFrame, grp.1.2 = m)
                 (groupby (λ r, (Product r, SalesMethod r)) filtered)).*2
  ≡ₚ filter (λ r, SalesMethod r = m) filtered.
Proof.
  split.
  - exact (groupby_marginal Month SalesMethod filtered m).
  - exact (groupby_marginal Product SalesMethod filtered m).
Qed.

(** X11.  [sales_method] and [margin] list the same methods in the same
    order, ascending; the rows of the product-by-method table ascend by
    Product and, within a product, by Sales Method. *)
Theorem summaries_sorted (filtered : DataFrame) :
  (margin filtered).*1 = (sales_method filtered).*1 ∧
  StronglySorted (strict String.le) (sales_method filtered).*1 ∧
  StronglySorted
    (λ p q : string * string,
       strict String.le p.1 q.1 ∨ (p.1 = q.1 ∧ strict String.le p.2 q.2))
    (product_sales filtered).*1.
Proof.
  unfold margin, sales_method, product_sales.
  rewrite agg_mean_keys, !agg_sum_keys. split; [done|]. split.
  - rewrite groupby_keys.
    exact (Sorted_NoDup_strict (K:=string) _ (sorted_Sorted _)
             (sorted_NoDup _ (unique_NoDup _))).
  - exact (groupby_pair_keys_sorted Product SalesMethod filtered).
Qed.

(** X12.  A method appears in a summary only if it is selected and occurs
    in the data; the month-by-method and product-by-method tables mention
    no method that [sales_method] does not list. *)
Theorem summary_methods_selected (df : DataFrame) sel (filtered : DataFrame) :
  apply df sel = inr filtered →
  (∀ m, m ∈ (sales_method filtered).*1 →
        m ∈ selected_methods sel ∧ m ∈ methods df) ∧
  (∀ k, k ∈ (monthly_sales filtered).*1 → k.2 ∈ (sales_method filtered).*1) ∧
  (∀ k, k ∈ (product_sales filtered).*1 → k.2 ∈ (sales_method filtered).*1).
Proof.
  rewrite apply_spec. intros Happly.
  destruct (date_range sel !! 0%nat) as [lo|]; [|done].
  destruct (date_range sel !! 1%nat) as [hi|]; [|done].
  injection Happly as <-.
  unfold sales_method, monthly_sales, product_sales. rewrite !agg_sum_keys.
  split; [|split].
  - intros m (r & Hr & <-)%groupby_keys_elem_of.
    apply list_elem_of_filter in Hr as [(_ & _ & Hm & _) Hr].
    split; [done|]. unfold methods.
    apply (proj2 (sorted_unique_elem_of _ _)). by apply list_elem_of_fmap_2.
  - intros k (r & Hr & <-)%groupby_keys_elem_of.
    apply groupby_keys_elem_of. by exists r.
  - intros k (r & Hr & <-)%groupby_keys_elem_of.
    apply groupby_keys_elem_of. by exists r.
Qed.

Lemma summary_methods_selected_witness :
  let sel := mkSelection "All" ["Amazon"; "Foot Locker"] ["Outlet"]
               [mkTimestamp 2021 1 1; mkTimestamp 2021 12 31] in
  let filtered := filter (λ r, SalesMethod r = "Outlet") example_df in
  apply example_df sel = inr filtered ∧
  ∀ m, m ∈ (sales_method filtered).*1 → m ∈ ["Outlet"].
Proof.
  intros sel filtered.
  assert (apply example_df sel = inr filtered) as Happly by reflexivity.
  split; [exact Happly|]. intros m Hm.
  exact (proj1 (proj1 (summary_methods_selected example_df sel filtered
                         Happly) m Hm)).
Defined.

Lemma load_data_Month (to_datetime : string → option Timestamp)
    (csv : list CsvRow) (df : DataFrame) (r : Row) :
  load_data to_datetime csv = inr df → r ∈ df →
  Month r = to_timestamp (to_period_M (InvoiceDate r)).
Proof.
  unfold load_data. intros Hload Hr.
  destruct (mapM to_datetime (csv_InvoiceDate <$> csv)) as [dates|]; [|done].
  injection Hload as <-. unfold assign_columns in Hr.
  apply elem_of_zip_with in Hr as (c & dm & -> & _ & Hdm).
  apply zip_fmap_snd in Hdm. simpl. by rewrite Hdm.
Qed.

(** X13.  For a frame that [load_data] returned, whatever the selection,
    every row of the month-by-method table is keyed by the first day of a
    month, and the table has at most one row for a calendar month and a
    method. *)
Theorem monthly_sales_one_row_per_month
    (to_datetime : string → option Timestamp) (csv : list CsvRow)
    (df : DataFrame) sel (filtered : DataFrame) :
  load_data to_datetime csv = inr df →
  apply df sel = inr filtered →
  (∀ k, k ∈ (monthly_sales filtered).*1 → day k.1 = 1) ∧
  NoDup ((λ k : Timestamp * string, (year k.1, month k.1, k.2))
           <$> (monthly_sales filtered).*1).
Proof.
  intros Hload Happly.
  assert (∀ k, k ∈ (monthly_sales filtered).*1 → day k.1 = 1) as Hday.
  { intros k. unfold monthly_sales. rewrite agg_sum_keys.
    intros (r & Hr & <-)%groupby_keys_elem_of. simpl.
    rewrite apply_spec in Happly.
    destruct (date_range sel !! 0%nat) as [lo|]; [|done].
    destruct (date_range sel !! 1%nat) as [hi|]; [|done].
    injection Happly as <-. apply list_elem_of_filter in Hr as [_ Hr].
    by rewrite (load_data_Month to_datetime csv df r Hload Hr). }
  split; [done|].
  apply NoDup_fmap_2_strong.
  - intros [t1 m1] [t2 m2] H1%Hday H2%Hday [= Hy Hm ->]. simpl in *.
    f_equal. destruct t1, t2; simpl in *. congruence.
  - unfold monthly_sales. rewrite agg_sum_keys. apply groupby_keys_NoDup.
Qed.

Lemma monthly_sales_one_row_per_month_witness :
  load_data parse_iso example_csv = inr example_df ∧
  apply example_df example_selection = inr example_df ∧
  ∀ k, k ∈ (monthly_sales example_df).*1 → day k.1 = 1.
Proof.
  assert (load_data parse_iso example_csv = inr example_df) as Hload
    by reflexivity.
  assert (apply example_df example_selection = inr example_df) as Happly
    by reflexivity.
  split; [exact Hload|]. split; [exact Happly|].
  exact (proj1 (monthly_sales_one_row_per_month parse_iso example_csv
                  example_df example_selection example_df Hload Happly)).
Defined.

(** X16.  Provided no row has the word "All" as its State, the frames
    obtained by selecting each offered state in turn, with the other
    three widgets fixed, hold between them exactly the rows of the frame
    obtained with "All", each once. *)
Theorem state_results_partition (df : DataFrame) rs ms lo hi :
  "All" ∉ State <$> df →
  ∃ filtered,
    apply df (mkSelection "All" rs ms [lo; hi]) = inr filtered ∧
    concat ((λ v, match apply df (mkSelection v rs ms [lo; hi]) with
                  | inr by_state => by_state
                  | inl _ => []
                  end) <$> tail (states df))
    ≡ₚ filtered.
Proof.
  intros Hall. rewrite apply_spec. simpl. eexists. split; [done|].
  set (sel := mkSelection "All" rs ms [lo; hi]).
  set (filtered := filter (passes sel lo hi) df).
  assert ((λ v, match apply df (mkSelection v rs ms [lo; hi]) with
                | inr by_state => by_state
                | inl _ => []
                end) <$> sorted (unique (State <$> df))
          = (λ v, filter (λ r, State r = v) filtered)
              <$> sorted (unique (State <$> df))) as ->.
  { apply list_fmap_ext. intros i v Hv. rewrite apply_spec. simpl.
    apply list_elem_of_lookup_2 in Hv.
    apply (proj1 (sorted_unique_elem_of _ _)) in Hv.
    unfold filtered. rewrite list_filter_filter.
    apply list_filter_iff. intros r. unfold passes. simpl.
    split; [|intros (Hst & _ & Hrest); split; [by left|done]].
    intros ([Hst|Hv'] & Hrest); [|subst v; by destruct Hall].
    split; [done|]. split; [by right|done]. }
  refine (concat_groups (K:=string) State _ filtered _ _).
  - apply sorted_NoDup, unique_NoDup.
  - intros r [_ Hr]%list_elem_of_filter.
    apply (proj2 (sorted_unique_elem_of _ _)). by apply list_elem_of_fmap_2.
Qed.

Lemma state_results_partition_witness :
  ("All" ∉ State <$> example_df) ∧
  ∃ filtered,
    apply example_df example_selection = inr filtered ∧
    concat ((λ v, match apply example_df
                          (mkSelection v ["Amazon"; "Foot Locker"]
                             ["Online"; "Outlet"]
                             [mkTimestamp 2021 1 15; mkTimestamp 2021 2 10])
                  with
                  | inr by_state => by_state
                  | inl _ => []
                  end) <$> tail (states example_df))
    ≡ₚ filtered.
Proof.
  assert ("All" ∉ State <$> example_df) as Hall.
  { intros Hin. repeat (apply elem_of_cons in Hin as [Hin|Hin];
                        [discriminate|]). by apply elem_of_nil in Hin. }
  split; [exact Hall|].
  exact (state_results_partition example_df ["Amazon"; "Foot Locker"]
           ["Online"; "Outlet"] (mkTimestamp 2021 1 15)
           (mkTimestamp 2021 2 10) Hall).
Defined.
